(** * CMVN feature normalisation of athena ([athena/transform/feats/cmvn.py])

    A shallow embedding of the [CMVN] frontend and of the stand-alone
    [compute_cmvn] function, together with the part of the hyper-parameter
    store and of the tensor library that they call.

    - Python floats and numpy [float64] values are IEEE binary64 numbers:
      they are primitive floats ([PrimFloat.float]).
    - A Python dict with string keys is a [gmap string value].
    - A raised exception is the [Raise] branch of [result]. *)

From Stdlib Require Import PrimFloat.
From stdpp Require Import gmap strings list.

Open Scope string_scope.

(** ** Exceptions and the error monad *)

(** The exceptions the modelled code paths can raise.  [ShapeMismatchError]
    stands for the tensor library's incompatible-shapes error. *)
Inductive exn : Set :=
  | DuplicateKeyError
  | UnknownKeyError
  | KindError
  | AssertionError
  | AttributeError
  | TypeError
  | ShapeMismatchError.

Inductive result (A : Type) : Type :=
  | Ok (a : A)
  | Raise (e : exn).
Arguments Ok {A} a.
Arguments Raise {A} e.

#[export] Instance result_ret : MRet result := fun A a => Ok a.
#[export] Instance result_bind : MBind result := fun A B f r =>
  match r with
  | Ok a => f a
  | Raise e => Raise e
  end.

Definition is_ok {A} (r : result A) : bool :=
  match r with Ok _ => true | Raise _ => false end.

(** ** Python values stored in a configuration *)

Inductive value : Type :=
  | VStr (s : string)
  | VBool (b : bool)
  | VNum (x : float)
  | VFloats (l : list float).

Definition same_kind (old new : value) : bool :=
  match old, new with
  | VStr _, VStr _ => true
  | VBool _, VBool _ => true
  | VNum _, VNum _ => true
  | VFloats _, VFloats _ => true
  | _, _ => false
  end.

(** Python's [len]. *)
Definition py_len (v : value) : result nat :=
  match v with
  | VStr s => Ok (String.length s)
  | VFloats l => Ok (length l)
  | VBool _ | VNum _ => Raise TypeError
  end.

(** Python's truth value of an object, as tested by [if]. *)
Definition truthy (v : value) : bool :=
  match v with
  | VStr s => negb (String.eqb s "")
  | VBool b => b
  | VNum x => negb (PrimFloat.eqb x 0)
  | VFloats l => negb (Nat.eqb (length l) 0)
  end.

(** ** The hyper-parameter store *)

(** Modelled from the spec: the read access of [HParams], which exposes
    every registered parameter as an attribute of that name. *)
Definition getattr (hp : gmap string value) (name : string) : result value :=
  match hp !! name with
  | Some v => Ok v
  | None => Raise AttributeError
  end.

(** Modelled from the spec: [HParams.add_hparam] of [athena/utils/hparam.py],
    whose source file is not available.  It registers [name] with a
    default value and fails when [name] is already registered. *)
Definition add_hparam (name : string) (v : value) (hp : gmap string value)
    : result (gmap string value) :=
  match hp !! name with
  | Some _ => Raise DuplicateKeyError
  | None => Ok (<[name := v]> hp)
  end.

(** Modelled from the spec: the assignment [HParams.parse] makes for one
    entry of the configuration.  The spec gives every option a kind (a tag
    string, two float sequences, a boolean) and says nothing of a value of
    another kind: it is refused here, which keeps every record of the store
    within the kinds of the spec.  What is stated about the configurations
    that [CMVN.params] accepts is stated for configurations of those kinds
    and does not rest on this refusal. *)
Definition set_hparam (strict : bool) (name : string) (v : value)
    (hp : gmap string value) : result (gmap string value) :=
  match hp !! name with
  | None => if strict then Raise UnknownKeyError else Ok hp
  | Some old => if same_kind old v then Ok (<[name := v]> hp) else Raise KindError
  end.

(** Modelled from the spec: [HParams.parse(config, strict)] of
    [athena/utils/hparam.py].  Every entry of [config] is applied on top of
    the registered defaults; with [strict] an unregistered key is an error,
    without it the key is ignored.  The configuration options are typed
    (a tag string, two float sequences, a boolean): a supplied value of
    another kind than the registered default is refused. *)
Definition parse (config : gmap string value) (strict : bool)
    (hp : gmap string value) : result (gmap string value) :=
  map_fold (fun name v acc => hp' ← acc; set_hparam strict name v hp') (Ok hp) config.

(** ** [CMVN.params] *)

(** The floating-point floor [1e-6]: the binary64 number nearest to it. *)
Definition eps : float := 0x1.0c6f7a0b5ed8dp-20%float.

(** [(np.sqrt(x) + 1e-6).tolist()] *)
Definition np_sqrt_eps (v : value) : result value :=
  match v with
  | VFloats l => Ok (VFloats (map (fun x => (PrimFloat.sqrt x + eps)%float) l))
  | VNum x => Ok (VNum (PrimFloat.sqrt x + eps)%float)
  | VBool _ | VStr _ => Raise TypeError
  end.

(** Lines 37-44: the defaults, overridden by [config] when one is given.
    [HParams(cls=cls)] is the empty store of the class: the spec's
    configuration record has the four registered parameters only. *)
Definition registered (config : option (gmap string value))
    : result (gmap string value) :=
  hp ← add_hparam "type" (VStr "CMVN") ∅;
  hp ← add_hparam "global_mean" (VFloats [0%float]) hp;
  hp ← add_hparam "global_variance" (VFloats [1%float]) hp;
  hp ← add_hparam "local_cmvn" (VBool false) hp;
  match config with
  | Some c => parse c true hp
  | None => Ok hp
  end.

(** Lines 46-53: the length assertion, then the variance turned into a
    scale and stored back under the same name. *)
Definition validated (hp : gmap string value) : result (gmap string value) :=
  gm ← getattr hp "global_mean";
  n_mean ← py_len gm;
  gv ← getattr hp "global_variance";
  n_var ← py_len gv;
  if Nat.eqb n_mean n_var then
    scaled ← np_sqrt_eps gv;
    Ok (<["global_variance" := scaled]> hp)
  else Raise AssertionError.

Definition params (config : option (gmap string value))
    : result (gmap string value) :=
  hp ← registered config;
  validated hp.

(** ** The [CMVN] object *)

Record CMVN : Type := mkCMVN {
  config : gmap string value;
  global_cmvn : bool
}.

(** [CMVN.__init__], lines 26-31.  The constructor of the base class,
    whose source file is not available, stores the configuration record as
    [self.config], as the spec has it. *)
Definition init (cfg : gmap string value) : result CMVN :=
  gm ← getattr cfg "global_mean";
  n ← py_len gm;
  Ok (mkCMVN cfg (if Nat.ltb 1 n then true else false)).

(** ** Feature tensors and the tensor library *)

(** The element-wise operations and the reduction the code asks of the
    tensor library, over the element type [F] of the feature tensor.
    [cast] converts a Python float to the tensor's element type;
    [reduce_mean] averages the values of one dimension across the frames. *)
Class TensorLib (F : Type) : Type := {
  fadd : F -> F -> F;
  fsub : F -> F -> F;
  fmul : F -> F -> F;
  fdiv : F -> F -> F;
  fsqrt : F -> F;
  cast : float -> F;
  reduce_mean : list F -> F
}.

(** A feature tensor of shape [[T, D]]: [T] frames of [D] values each.
    The dimensionality is kept next to the frames, as a tensor without
    frames still has one.  The tensors of the library are rectangular:
    every frame of a well-formed tensor ([wf]) has [t_dim] values. *)
Record tensor (F : Type) : Type := mkTensor {
  t_dim : nat;
  t_frames : list (list F)
}.
Arguments mkTensor {F} t_dim t_frames.
Arguments t_dim {F} t.
Arguments t_frames {F} t.

Definition wf {F} (x : tensor F) : Prop :=
  Forall (fun row => length row = t_dim x) (t_frames x).

(** Element [[i, d]] of a tensor. *)
Definition at_ {F} (x : tensor F) (i d : nat) : option F :=
  row ← t_frames x !! i; row !! d.

Section Tensors.
Context {F : Type} `{TensorLib F}.

(** Broadcasting of a last dimension [D] against a vector of length [n]:
    equal lengths pair up, a length of one is stretched to the other,
    anything else is incompatible. *)
Definition broadcast_dim (D n : nat) : option nat :=
  if Nat.eqb D n then Some D
  else if Nat.eqb n 1 then Some D
  else if Nat.eqb D 1 then Some n
  else None.

Definition broadcast_row (op : F -> F -> F) (row v : list F) : list F :=
  match row, v with
  | [a], _ => map (op a) v
  | _, [b] => map (fun a => op a b) row
  | _, _ => zip_with op row v
  end.

(** [x op v] for a tensor [x] and a vector [v]. *)
Definition tensor_op (op : F -> F -> F) (x : tensor F) (v : list F)
    : result (tensor F) :=
  match broadcast_dim (t_dim x) (length v) with
  | Some D => Ok (mkTensor D (map (fun row => broadcast_row op row v) (t_frames x)))
  | None => Raise ShapeMismatchError
  end.

(** The values of dimension [d], one per frame. *)
Definition column (x : tensor F) (d : nat) : list F :=
  omap (fun row => row !! d) (t_frames x).

(** [tf.nn.moments(x, axes=0)]: the mean of every dimension across the
    frames, and the mean of the squared differences to it. *)
Definition moments (x : tensor F) : list F * list F :=
  let cols := map (column x) (seq 0 (t_dim x)) in
  let mean := map reduce_mean cols in
  let var :=
    zip_with (fun col m => reduce_mean (map (fun a => fmul (fsub a m) (fsub a m)) col))
      cols mean in
  (mean, var).

(** Lines 63-66 and 80-81: normalisation by the tensor's own statistics. *)
Definition local_norm (x : tensor F) : result (tensor F) :=
  let '(mean, var) := moments x in
  centred ← tensor_op fsub x mean;
  tensor_op fdiv centred (map (fun s => fadd (fsqrt s) (cast eps)) var).

(** A hyper-parameter used as the right operand of a tensor operation: a
    list becomes a vector of the tensor's element type, a number a scalar,
    which broadcasts as the vector of that one value does. *)
Definition as_vector (v : value) : result (list F) :=
  match v with
  | VFloats l => Ok (map cast l)
  | VNum x => Ok [cast x]
  | VBool _ | VStr _ => Raise TypeError
  end.

(** [CMVN.call]; [speed] is not used. *)
Definition call (self : CMVN) (audio_feature : tensor F) : result (tensor F) :=
  let params := config self in
  audio_feature ←
    (if global_cmvn self then
       gm ← getattr params "global_mean";
       mean ← as_vector gm;
       centred ← tensor_op fsub audio_feature mean;
       gv ← getattr params "global_variance";
       scale ← as_vector gv;
       tensor_op fdiv centred scale
     else Ok audio_feature);
  lc ← getattr params "local_cmvn";
  if truthy lc then local_norm audio_feature else Ok audio_feature.

(** [compute_cmvn]; an absent [mean] or [variance] is [None]. *)
Definition compute_cmvn (audio_feature : tensor F)
    (mean variance : option (list F)) (local_cmvn : bool) : result (tensor F) :=
  audio_feature ←
    match mean with
    | Some m =>
        match variance with
        | None => Raise AssertionError
        | Some v =>
            centred ← tensor_op fsub audio_feature m;
            tensor_op fdiv centred v
        end
    | None => Ok audio_feature
    end;
  if local_cmvn then local_norm audio_feature else Ok audio_feature.

End Tensors.

(** The number of frames as a float. *)
Fixpoint float_of_nat (n : nat) : float :=
  match n with
  | O => 0%float
  | S k => (float_of_nat k + 1)%float
  end.

(** Binary64 arithmetic, to run [call] and [compute_cmvn] on sample
    features.  Its operations are the IEEE ones: they are the library's as
    long as no operand or result is subnormal (the library flushes those to
    zero).  Its reduction adds the values from left to right and divides by
    their number, which is the library's result for up to three values; the
    library adds four or more values in another order.  The samples stay
    within these limits; what is proved of arbitrary features is proved for
    every [TensorLib], not for this instance. *)
#[export] Instance float64 : TensorLib float := {
  fadd := PrimFloat.add;
  fsub := PrimFloat.sub;
  fmul := PrimFloat.mul;
  fdiv := PrimFloat.div;
  fsqrt := PrimFloat.sqrt;
  cast := fun x => x;
  reduce_mean := fun l => (foldl PrimFloat.add 0%float l / float_of_nat (length l))%float
}.

(** ** The registered defaults *)

(** The defaults registered by [CMVN.params]. *)
Definition defaults : gmap string value :=
  <["local_cmvn" := VBool false]>
    (<["global_variance" := VFloats [1%float]]>
      (<["global_mean" := VFloats [0%float]]>
        (<["type" := VStr "CMVN"]> ∅))).

(** The value of option [name] once [config] is laid over the defaults. *)
Definition effective (config : option (gmap string value)) (name : string)
    : option value :=
  match defaults !! name with
  | Some old => Some (default old (c ← config; c !! name))
  | None => None
  end.

(** ** Statistics of one dimension, as [moments] computes them *)

Definition mean_of {F} `{TensorLib F} (x : tensor F) (d : nat) : F :=
  reduce_mean (column x d).

Definition variance_of {F} `{TensorLib F} (x : tensor F) (d : nat) : F :=
  reduce_mean
    (map (fun a => fmul (fsub a (mean_of x d)) (fsub a (mean_of x d))) (column x d)).

(** The tensor obtained by pairing every frame with the vector [v]. *)
Definition pointwise {F} (op : F -> F -> F) (x : tensor F) (v : list F) : tensor F :=
  mkTensor (t_dim x) (map (fun row => zip_with op row v) (t_frames x)).

(** The tensor obtained by stretching one-value frames over the vector [v]. *)
Definition stretched {F} (op : F -> F -> F) (x : tensor F) (v : list F) : tensor F :=
  mkTensor (length v) (map (fun row => broadcast_row op row v) (t_frames x)).

(** [col] holds the values of dimension [d] of [x], one per frame and in
    the order of the frames: the values of [x] along axis 0. *)
Definition across_frames {F} (x : tensor F) (d : nat) (col : list F) : Prop :=
  length col = length (t_frames x) /\ forall j, col !! j = at_ x j d.

(** [y] has the shape of [x]. *)
Definition same_shape {F} (y x : tensor F) : Prop :=
  wf y /\ t_dim y = t_dim x /\ length (t_frames y) = length (t_frames x).

(** ** The body of the class *)

(** The statements of a body, as far as binding names goes: a [def] binds
    its name when it is executed, a [return] ends the execution of the
    body, any other statement binds no method. *)
#[local] Unset Elimination Schemes.
Inductive stmt : Type :=
  | Def (name : string) (body : list stmt)
  | Return
  | Other.
#[local] Set Elimination Schemes.

(** The names bound by the [def] statements that executing a body reaches. *)
Fixpoint bound (body : list stmt) : list string :=
  match body with
  | [] => []
  | Def name _ :: rest => name :: bound rest
  | Return :: _ => []
  | Other :: rest => bound rest
  end.

(** Lines 56-72, the body of [call]: an assignment, two conditionals, the
    [return] of line 68 and, after it, the [def dim] of line 70. *)
Definition call_body : list stmt :=
  [Other; Other; Other; Return; Def "dim" [Other; Return]].

(** Lines 25-72: the class body of [CMVN]. *)
Definition CMVN_body : list stmt :=
  [Def "__init__" [Other; Other; Other];
   Def "params"
     [Other; Other; Other; Other; Other; Other; Other; Other; Other; Return];
   Def "call" call_body].

(** The class defines a method of that name. *)
Definition has_method (name : string) : bool :=
  bool_decide (name ∈ bound CMVN_body).

(** Whether the first element of the first frame is below [bound]. *)
Definition first_below (bound : float) (x : tensor float) : bool :=
  match at_ x 0 0 with
  | Some a => PrimFloat.ltb a bound
  | None => false
  end.

(** ** Sample configurations and features *)

(** Two dimensions, mean [[1, 1]] and raw variance [[1, 4]]. *)
Definition cfg22 : gmap string value :=
  <["global_mean" := VFloats [1%float; 1%float]]>
    (<["global_variance" := VFloats [1%float; 4%float]]> ∅).

(** The record [CMVN.params] builds from [cfg22]. *)
Definition hp22 : gmap string value :=
  <["global_variance" :=
      VFloats [(PrimFloat.sqrt 1 + eps)%float; (PrimFloat.sqrt 4 + eps)%float]]>
    (<["global_mean" := VFloats [1%float; 1%float]]> defaults).

Definition cmvn22 : CMVN := mkCMVN hp22 true.

(** The same with [local_cmvn] set: both steps of [call] run. *)
Definition cfg22_local : gmap string value :=
  <["local_cmvn" := VBool true]> cfg22.

Definition hp22_local : gmap string value :=
  <["local_cmvn" := VBool true]> hp22.

Definition cmvn22_local : CMVN := mkCMVN hp22_local true.

(** A mean of two values against the default one-element variance. *)
Definition cfg_mismatch : gmap string value :=
  <["global_mean" := VFloats [1%float; 1%float]]> ∅.

(** The record of the defaults alone, and its instance. *)
Definition hp_default : gmap string value :=
  <["global_variance" := VFloats [(PrimFloat.sqrt 1 + eps)%float]]> defaults.

Definition cmvn_default : CMVN := mkCMVN hp_default false.

(** Three frames of two values; one frame of two values; two frames of
    one value. *)
Definition x32 : tensor float := mkTensor 2 [[3; 3]; [1; 5]; [2; 2]]%float.
Definition x12 : tensor float := mkTensor 2 [[3; 3]]%float.
Definition x21 : tensor float := mkTensor 1 [[3]; [1]]%float.

(** Mean [[0, 0]] with raw variance [[1, 1]]; the same with [local_cmvn]
    set; two frames of zeros; three equal frames. *)
Definition cfg00 : gmap string value :=
  <["global_mean" := VFloats [0%float; 0%float]]>
    (<["global_variance" := VFloats [1%float; 1%float]]> ∅).
Definition cfg00_local : gmap string value :=
  <["local_cmvn" := VBool true]> cfg00.
Definition zeros22 : tensor float := mkTensor 2 [[0; 0]; [0; 0]]%float.
Definition same32 : tensor float := mkTensor 2 [[3; 5]; [3; 5]; [3; 5]]%float.

(** ** Notions used to state further properties *)

(** An entry the store [hp] takes: its key is registered with a default of
    the entry's kind, or the parse is not strict and the key is unknown. *)
Definition entry_ok (strict : bool) (hp : gmap string value)
    (k : string) (v : value) : Prop :=
  match hp !! k with
  | Some old => same_kind old v = true
  | None => strict = false
  end.

(** A configuration whose values have the kinds of their options: the
    tag a string, the mean and the variance float sequences, the flag a
    boolean. *)
Definition well_kinded (c : gmap string value) : Prop :=
  forall k v old, c !! k = Some v -> defaults !! k = Some old ->
    same_kind old v = true.

(** The scale [CMVN.params] stores for the raw variance [v]. *)
Definition scale_of (v : list float) : list float :=
  map (fun x => (PrimFloat.sqrt x + eps)%float) v.

(** The tensor obtained by combining every value with the scalar [b]. *)
Definition with_scalar {F} (op : F -> F -> F) (x : tensor F) (b : F) : tensor F :=
  mkTensor (t_dim x) (map (map (fun a => op a b)) (t_frames x)).

(** ** The training entry point ([athena/main.py]) *)

(** The model builders, datasets, solver and checkpointer are objects of
    the framework: a call to one of them is an [event] of the run, in the
    order the code makes it.  What is modelled is the control flow of
    [load_model_from_jsonfile] and [train] around those calls, none of
    which decides a branch; the calls themselves are taken to return. *)
Module Main.

Inductive dataset_builder_class : Set :=
  | SpeechRecognitionDatasetBuilder
  | SpeechDatasetBuilder.

Inductive model_class : Set :=
  | DeepSpeechModel
  | SpeechTransformer
  | SpeechTransformer2
  | MtlTransformerCtc
  | MaskedPredictCoding.

Inductive optimizer_class : Set :=
  | WarmUpAdam
  | ExponentialDecayAdam
  | Adam.

(** Lines 39-56: the three tables of supported names. *)
Definition SUPPORTED_DATASET_BUILDER : gmap string dataset_builder_class :=
  list_to_map
    [("speech_recognition_dataset", SpeechRecognitionDatasetBuilder);
     ("speech_dataset", SpeechDatasetBuilder)].

Definition SUPPORTED_MODEL : gmap string model_class :=
  list_to_map
    [("deep_speech", DeepSpeechModel);
     ("speech_transformer", SpeechTransformer);
     ("speech_transformer2", SpeechTransformer2);
     ("mtl_transformer_ctc", MtlTransformerCtc);
     ("mpc", MaskedPredictCoding)].

Definition SUPPORTED_OPTIMIZER : gmap string optimizer_class :=
  list_to_map
    [("warmup_adam", WarmUpAdam);
     ("expdecay_adam", ExponentialDecayAdam);
     ("adam", Adam)].

(** The parsed configuration [p], with the options the control flow reads.
    The configuration blocks handed unchanged to the framework objects
    ([solver_config], [model_config], [optimizer_config], [dataset_config],
    [decode_config]) and the options [main.py] only passes on are left
    out.  An option that is [None] in Python is [None] here. *)
Record Params : Type := mkParams {
  batch_size : Z;
  num_epochs : Z;
  sorta_epoch : Z;
  ckpt : option string;
  summary_dir : option string;
  model : string;
  num_classes : option Z;
  pretrained_model : option string;
  optimizer : string;
  dataset_builder : string;
  train_csv : option string;
  dev_csv : option string
}.

(** Lines 58-79: the defaults of those options. *)
Definition DEFAULT_CONFIGS : Params := {|
  batch_size := 32;
  num_epochs := 20;
  sorta_epoch := 1;
  ckpt := None;
  summary_dir := None;
  model := "speech_transformer";
  num_classes := None;
  pretrained_model := None;
  optimizer := "warmup_adam";
  dataset_builder := "speech_recognition_dataset";
  train_csv := None;
  dev_csv := None
|}.

Inductive error : Type :=
  | ConfigError
  | KeyError (key : string)
  | ValueError.

(** The calls to the framework, and the log lines.  [NewModel] carries
    [p.num_classes]: when it is [None] the model is given the number of
    classes of the dataset builder. *)
Inductive event : Type :=
  | OpenJson (jsonfile : string)
  | NewDatasetBuilder (cls : dataset_builder_class)
  | NewModel (cls : model_class) (classes : option Z)
  | NewOptimizer (cls : optimizer_class)
  | NewCheckpoint (directory summary : option string) (rank : Z)
  | NewBaseSolver
  | NewSolver
  | LoadCsv (csv : option string)
  | AsDataset (batch : Z)
  | EvaluateStep
  | RestoreFromPretrained (model_name : string)
  | ComputeCmvnIfNecessary (is_chief : bool)
  | Shard (rank_size rank : Z)
  | BatchWiseShuffle (batch : Z)
  | Train
  | Evaluate (epoch : Z)
  | Checkpointer (epoch : Z)
  | LogTraining (epoch : Z)
  | LogEvaluate (epoch : Z).

(** A run: the events made so far, and a value or the exception raised. *)
Record run (A : Type) : Type := mkRun {
  trace : list event;
  outcome : error + A
}.
Arguments mkRun {A} trace outcome.
Arguments trace {A} r.
Arguments outcome {A} r.

#[export] Instance run_ret : MRet run := fun A a => mkRun [] (inr a).
#[export] Instance run_bind : MBind run := fun A B f r =>
  match outcome r with
  | inr a => mkRun (trace r ++ trace (f a)) (outcome (f a))
  | inl e => mkRun (trace r) (inl e)
  end.

Definition emit (e : event) : run unit := mkRun [e] (inr tt).
Definition raise {A} (e : error) : run A := mkRun [] (inl e).

(** [table[key]] *)
Definition subscript {A} (table : gmap string A) (key : string) : run A :=
  match table !! key with
  | Some a => mret a
  | None => raise (KeyError key)
  end.

(** [for x in xs: body(x)] *)
Fixpoint for_each {A} (xs : list A) (body : A -> run unit) : run unit :=
  match xs with
  | [] => mret tt
  | x :: rest => body x;; for_each rest body
  end.

Section Runs.

(** Opening [jsonfile], loading it as JSON and parsing it with
    [parse_config] (lines 96-98), which rests on the file system and on the
    hyper-parameter store: the parsed configuration, or [None] when one of
    the three fails. *)
Variable read_config : string -> option Params.

(** [load_model_from_jsonfile], lines 92-127; the configuration is what
    the caller goes on with. *)
Definition load_model_from_jsonfile (jsonfile : string) (rank : Z) (pre_run : bool)
    : run Params :=
  emit (OpenJson jsonfile);;
  p ← match read_config jsonfile with
      | Some p => mret p
      | None => raise ConfigError
      end;
  builder ← subscript SUPPORTED_DATASET_BUILDER (dataset_builder p);
  emit (NewDatasetBuilder builder);;
  model_cls ← subscript SUPPORTED_MODEL (model p);
  emit (NewModel model_cls (num_classes p));;
  optimizer_cls ← subscript SUPPORTED_OPTIMIZER (optimizer p);
  emit (NewOptimizer optimizer_cls);;
  emit (NewCheckpoint (ckpt p) (summary_dir p) rank);;
  (if pre_run || bool_decide (pretrained_model p <> None) then
     emit NewBaseSolver;;
     (match dev_csv p with
      | None => raise ValueError
      | Some _ => mret tt
      end);;
     emit (LoadCsv (dev_csv p));;
     emit (AsDataset (batch_size p));;
     emit EvaluateStep
   else mret tt);;
  mret p.

(** One turn of the loop of [train], lines 151-165. *)
Definition epoch_body (p : Params) (rank_size rank : Z) (epoch : Z) : run unit :=
  (if bool_decide (rank = 0%Z) then emit (LogTraining epoch) else mret tt);;
  emit (LoadCsv (train_csv p));;
  emit (Shard rank_size rank);;
  (if bool_decide (sorta_epoch p <= epoch)%Z
   then emit (BatchWiseShuffle (batch_size p)) else mret tt);;
  emit (AsDataset (batch_size p));;
  emit Train;;
  (if bool_decide (rank = 0%Z) then emit (LogEvaluate epoch) else mret tt);;
  emit (LoadCsv (dev_csv p));;
  emit (AsDataset (batch_size p));;
  emit (Evaluate epoch);;
  emit (Checkpointer epoch).

(** [train], lines 130-165; [range(n)] is [seqZ 0 n]. *)
Definition train (jsonfile : string) (rank_size rank : Z) : run unit :=
  p ← load_model_from_jsonfile jsonfile rank true;
  (match pretrained_model p with
   | Some pretrained =>
       p2 ← load_model_from_jsonfile pretrained rank true;
       emit (RestoreFromPretrained (model p2))
   | None => mret tt
   end);;
  emit (LoadCsv (train_csv p));;
  emit (ComputeCmvnIfNecessary (bool_decide (rank = 0%Z)));;
  emit NewSolver;;
  for_each (seqZ 0 (num_epochs p)) (epoch_body p rank_size rank).

End Runs.

(** The epochs evaluated, the epochs checkpointed and the number of
    events of a kind, read off a trace. *)
Definition evaluated (t : list event) : list Z :=
  omap (fun e => match e with Evaluate k => Some k | _ => None end) t.

Definition checkpointed (t : list event) : list Z :=
  omap (fun e => match e with Checkpointer k => Some k | _ => None end) t.

Definition is_train (e : event) : bool :=
  match e with Train => true | _ => false end.

Definition is_shuffle (e : event) : bool :=
  match e with BatchWiseShuffle _ => true | _ => false end.

Definition is_dataset_use (e : event) : bool :=
  match e with
  | LoadCsv _ | AsDataset _ | EvaluateStep | ComputeCmvnIfNecessary _
  | Shard _ _ | BatchWiseShuffle _ | Train | Evaluate _ => true
  | _ => false
  end.

Definition is_cmvn (e : event) : bool :=
  match e with ComputeCmvnIfNecessary _ => true | _ => false end.

Definition count (f : event -> bool) (t : list event) : nat :=
  length (filter (fun e => f e = true) t).

(** A trace in which no epoch has begun: nothing trained, shuffled,
    evaluated or checkpointed. *)
Definition quiet (t : list event) : Prop :=
  evaluated t = [] /\ checkpointed t = []
  /\ count is_train t = 0 /\ count is_shuffle t = 0.

(** The first name of [p] the tables do not have, in the order the code
    looks the names up. *)
Definition first_unsupported (p : Params) : option string :=
  match SUPPORTED_DATASET_BUILDER !! dataset_builder p with
  | None => Some (dataset_builder p)
  | Some _ =>
      match SUPPORTED_MODEL !! model p with
      | None => Some (model p)
      | Some _ =>
          match SUPPORTED_OPTIMIZER !! optimizer p with
          | None => Some (optimizer p)
          | Some _ => None
          end
      end
  end.


(** The names of [p] are all in the tables. *)
Definition supported (p : Params) : Prop :=
  is_Some (SUPPORTED_DATASET_BUILDER !! dataset_builder p)
  /\ is_Some (SUPPORTED_MODEL !! model p)
  /\ is_Some (SUPPORTED_OPTIMIZER !! optimizer p).

(** [jsonfile] can be loaded with a pre-run: it parses, its names are
    supported and it names a development set. *)
Definition loadable (read_config : string -> option Params) (jsonfile : string)
    : Prop :=
  exists p, read_config jsonfile = Some p /\ supported p /\ is_Some (dev_csv p).

(** [train] can run on [jsonfile]: the file can be loaded with a pre-run,
    and so can the file of the pretrained model if it names one. *)
Definition trainable (read_config : string -> option Params) (jsonfile : string)
    : Prop :=
  exists p, read_config jsonfile = Some p /\ supported p /\ is_Some (dev_csv p)
    /\ forall pretrained, pretrained_model p = Some pretrained ->
         loadable read_config pretrained.

(** Sample files: a configuration with a development set, the defaults
    (which have none), and one with an unsupported model. *)
Definition with_dev : Params := {|
  batch_size := 32;
  num_epochs := 3;
  sorta_epoch := 1;
  ckpt := Some "ckpts";
  summary_dir := None;
  model := "speech_transformer";
  num_classes := None;
  pretrained_model := None;
  optimizer := "warmup_adam";
  dataset_builder := "speech_recognition_dataset";
  train_csv := Some "train.csv";
  dev_csv := Some "dev.csv"
|}.

(** The defaults with a model the table does not have. *)
Definition with_unknown_model : Params := {|
  batch_size := 32;
  num_epochs := 20;
  sorta_epoch := 1;
  ckpt := None;
  summary_dir := None;
  model := "las";
  num_classes := None;
  pretrained_model := None;
  optimizer := "warmup_adam";
  dataset_builder := "speech_recognition_dataset";
  train_csv := None;
  dev_csv := None
|}.

Definition sample_files (jsonfile : string) : option Params :=
  if String.eqb jsonfile "hkust.json" then Some with_dev
  else if String.eqb jsonfile "default.json" then Some DEFAULT_CONFIGS
  else if String.eqb jsonfile "las.json" then Some with_unknown_model
  else None.

End Main.

(** ** Facts about the hyper-parameter store *)

Lemma same_kind_refl v : same_kind v v = true.
Proof. by destruct v. Qed.

Lemma parse_spec c strict hp hp' :
  parse c strict hp = Ok hp' ->
  forall k,
    match hp !! k with
    | None => hp' !! k = None
    | Some old => hp' !! k = Some (default old (c !! k))
                  /\ same_kind old (default old (c !! k)) = true
    end.
Proof.
  unfold parse. revert hp'.
  apply (map_fold_weak_ind (fun r m => forall hp', r = Ok hp' -> forall k,
    match hp !! k with
    | None => hp' !! k = None
    | Some old => hp' !! k = Some (default old (m !! k))
                  /\ same_kind old (default old (m !! k)) = true
    end)).
  - intros hp' [= <-] k. rewrite lookup_empty. simpl.
    destruct (hp !! k); auto using same_kind_refl.
  - intros i x m r Hi IH hp' Hstep k.
    destruct r as [hp1|e]; simpl in Hstep; [|discriminate].
    specialize (IH hp1 eq_refl).
    unfold set_hparam in Hstep.
    destruct (decide (k = i)) as [->|Hne].
    + specialize (IH i). rewrite Hi in IH. rewrite lookup_insert_eq.
      destruct (hp !! i) as [old|] eqn:Hold.
      * destruct IH as [IH _]. simpl in IH. rewrite IH in Hstep.
        destruct (same_kind old x) eqn:Hk; [|discriminate].
        injection Hstep as <-. rewrite lookup_insert_eq. auto.
      * rewrite IH in Hstep. destruct strict; [discriminate|].
        by injection Hstep as <-.
    + specialize (IH k). rewrite lookup_insert_ne by done.
      destruct (hp1 !! i) as [old1|].
      * destruct (same_kind old1 x); [|discriminate].
        injection Hstep as <-. by rewrite lookup_insert_ne.
      * destruct strict; [discriminate|]. by injection Hstep as <-.
Qed.

Lemma registered_parse c : registered (Some c) = parse c true defaults.
Proof. reflexivity. Qed.

Lemma registered_None : registered None = Ok defaults.
Proof. reflexivity. Qed.

(** After registration and parsing every option holds its effective value,
    of the kind of its default. *)
Lemma registered_lookup cfg hp k :
  registered cfg = Ok hp -> hp !! k = effective cfg k.
Proof.
  unfold effective. destruct cfg as [c|].
  - rewrite registered_parse. intros Hp.
    pose proof (parse_spec _ _ _ _ Hp k) as Hk. simpl.
    destruct (defaults !! k); [by destruct Hk|done].
  - rewrite registered_None. intros [= <-]. simpl.
    by destruct (defaults !! k).
Qed.

Lemma registered_floats cfg hp k d :
  registered cfg = Ok hp -> defaults !! k = Some (VFloats d) ->
  exists l, hp !! k = Some (VFloats l).
Proof.
  intros Hr Hd. destruct cfg as [c|].
  - rewrite registered_parse in Hr.
    pose proof (parse_spec _ _ _ _ Hr k) as Hk. rewrite Hd in Hk.
    destruct Hk as [Hl Hkind]. rewrite Hl.
    destruct (default (VFloats d) (c !! k)); try discriminate. eauto.
  - rewrite registered_None in Hr. injection Hr as <-. eauto.
Qed.

Lemma registered_bool cfg hp k d :
  registered cfg = Ok hp -> defaults !! k = Some (VBool d) ->
  exists b, hp !! k = Some (VBool b).
Proof.
  intros Hr Hd. destruct cfg as [c|].
  - rewrite registered_parse in Hr.
    pose proof (parse_spec _ _ _ _ Hr k) as Hk. rewrite Hd in Hk.
    destruct Hk as [Hl Hkind]. rewrite Hl.
    destruct (default (VBool d) (c !! k)); try discriminate. eauto.
  - rewrite registered_None in Hr. injection Hr as <-. eauto.
Qed.

(** What an accepted configuration looks like: the effective mean and raw
    variance are float sequences of one length, and the record keeps the
    mean and holds the scaled variance. *)
Lemma params_inv cfg hp :
  params cfg = Ok hp ->
  exists hp0 m v,
    registered cfg = Ok hp0
    /\ hp0 !! "global_mean" = Some (VFloats m)
    /\ hp0 !! "global_variance" = Some (VFloats v)
    /\ length m = length v
    /\ hp = <["global_variance" :=
              VFloats (map (fun x => (PrimFloat.sqrt x + eps)%float) v)]> hp0.
Proof.
  unfold params. destruct (registered cfg) as [hp0|e] eqn:Hr; [|discriminate].
  simpl. intros Hv.
  destruct (registered_floats _ _ "global_mean" _ Hr eq_refl) as [m Hm].
  destruct (registered_floats _ _ "global_variance" _ Hr eq_refl) as [v Hvar].
  exists hp0, m, v. unfold validated, getattr in Hv.
  rewrite Hm, Hvar in Hv. simpl in Hv.
  destruct (Nat.eqb_spec (length m) (length v)) as [Heq|Hne]; [|discriminate].
  simpl in Hv. by injection Hv as <-.
Qed.

(** ** Facts about tensors *)

Section TensorFacts.
Context {F : Type} `{TensorLib F}.
Implicit Types (x : tensor F) (v : list F) (op : F -> F -> F).

Lemma broadcast_row_same op row v :
  length row = length v -> broadcast_row op row v = zip_with op row v.
Proof.
  destruct row as [|a [|a' row]], v as [|b [|b' v]]; simpl; intros Hl;
    done || discriminate.
Qed.

Lemma tensor_op_same op x v :
  wf x -> length v = t_dim x -> tensor_op op x v = Ok (pointwise op x v).
Proof.
  intros Hwf Hlen. unfold tensor_op, broadcast_dim, pointwise.
  rewrite Hlen, Nat.eqb_refl. do 2 f_equal.
  unfold wf in Hwf. induction Hwf as [|row rows Hrow _ IH]; [done|].
  simpl. rewrite IH. f_equal. apply broadcast_row_same. congruence.
Qed.

Lemma tensor_op_stretch op x v :
  t_dim x = 1 -> length v <> 1 -> tensor_op op x v = Ok (stretched op x v).
Proof.
  intros HD Hn. unfold tensor_op, broadcast_dim, stretched. rewrite HD.
  destruct (Nat.eqb_spec 1 (length v)) as [Heq|_]; [by rewrite <- Heq in Hn|].
  by destruct (Nat.eqb_spec (length v) 1).
Qed.

Lemma tensor_op_mismatch op x v :
  t_dim x <> length v -> length v <> 1 -> t_dim x <> 1 ->
  tensor_op op x v = Raise ShapeMismatchError.
Proof.
  intros H1 H2 H3. unfold tensor_op, broadcast_dim.
  destruct (Nat.eqb_spec (t_dim x) (length v)); [done|].
  destruct (Nat.eqb_spec (length v) 1); [done|].
  by destruct (Nat.eqb_spec (t_dim x) 1).
Qed.

Lemma pointwise_wf op x v : wf x -> length v = t_dim x -> wf (pointwise op x v).
Proof.
  unfold wf, pointwise. simpl. intros Hwf Hlen.
  apply Forall_fmap. eapply Forall_impl; [exact Hwf|].
  intros row Hrow. simpl in *. rewrite length_zip_with. lia.
Qed.

Lemma stretched_wf op x v : wf x -> t_dim x = 1 -> wf (stretched op x v).
Proof.
  unfold wf, stretched. simpl. intros Hwf HD.
  apply Forall_fmap. eapply Forall_impl; [exact Hwf|].
  intros row Hrow. simpl in *. rewrite HD in Hrow.
  destruct row as [|a [|a' row]]; try discriminate.
  simpl. by rewrite length_map.
Qed.

Lemma pointwise_at op x v i d :
  at_ (pointwise op x v) i d = a ← at_ x i d; b ← v !! d; Some (op a b).
Proof.
  unfold at_, pointwise. simpl. rewrite list_lookup_fmap.
  destruct (t_frames x !! i) as [row|]; simpl; [|done].
  apply lookup_zip_with.
Qed.

Lemma at_lt x i d a : wf x -> at_ x i d = Some a -> d < t_dim x.
Proof.
  unfold wf, at_. intros Hwf Hat.
  destruct (t_frames x !! i) as [row|] eqn:Hrow; simpl in Hat; [|discriminate].
  rewrite Forall_lookup in Hwf. rewrite <- (Hwf _ _ Hrow).
  by eapply lookup_lt_Some.
Qed.

Lemma moments_length x :
  length (moments x).1 = t_dim x /\ length (moments x).2 = t_dim x.
Proof.
  unfold moments. simpl.
  rewrite length_zip_with, !length_map, length_seq. lia.
Qed.

Lemma moments_mean x d :
  d < t_dim x -> (moments x).1 !! d = Some (mean_of x d).
Proof.
  intros Hd. unfold moments, mean_of. simpl.
  by rewrite !list_lookup_fmap, lookup_seq_lt.
Qed.

Lemma moments_variance x d :
  d < t_dim x -> (moments x).2 !! d = Some (variance_of x d).
Proof.
  intros Hd. unfold moments, variance_of, mean_of. simpl.
  rewrite lookup_zip_with, !list_lookup_fmap, lookup_seq_lt by done.
  reflexivity.
Qed.

(** The vectors [local_norm] subtracts and divides by. *)
Lemma local_norm_pointwise x :
  wf x ->
  local_norm x =
    Ok (pointwise fdiv (pointwise fsub x (moments x).1)
          (map (fun s => fadd (fsqrt s) (cast eps)) (moments x).2)).
Proof.
  intros Hwf. unfold local_norm.
  destruct (moments_length x) as [Hm Hv].
  destruct (moments x) as [mean var]. simpl in *.
  rewrite tensor_op_same by done. simpl.
  apply tensor_op_same; [by apply pointwise_wf|].
  by rewrite length_map.
Qed.

Lemma local_norm_spec x :
  wf x ->
  exists out,
    local_norm x = Ok out
    /\ wf out
    /\ t_dim out = t_dim x
    /\ length (t_frames out) = length (t_frames x)
    /\ forall i d a, at_ x i d = Some a ->
         at_ out i d =
           Some (fdiv (fsub a (mean_of x d))
                      (fadd (fsqrt (variance_of x d)) (cast eps))).
Proof.
  intros Hwf. eexists. split; [by apply local_norm_pointwise|].
  destruct (moments_length x) as [Hm Hv].
  split; [|split; [done|split]].
  - apply pointwise_wf; [by apply pointwise_wf|]. by rewrite length_map.
  - simpl. by rewrite !length_map.
  - intros i d a Hat. pose proof (at_lt _ _ _ _ Hwf Hat) as Hd.
    rewrite !pointwise_at, Hat, list_lookup_fmap.
    rewrite moments_mean, moments_variance by done. reflexivity.
Qed.

(** The global step on a feature of the statistics' dimensionality. *)
Lemma global_step_spec x m s :
  wf x -> length m = t_dim x -> length s = t_dim x ->
  exists y,
    (c ← tensor_op fsub x m; tensor_op fdiv c s) = Ok y
    /\ wf y
    /\ t_dim y = t_dim x
    /\ length (t_frames y) = length (t_frames x)
    /\ forall i d a, at_ x i d = Some a ->
         exists md sd, m !! d = Some md /\ s !! d = Some sd
           /\ at_ y i d = Some (fdiv (fsub a md) sd).
Proof.
  intros Hwf Hm Hs. exists (pointwise fdiv (pointwise fsub x m) s).
  rewrite tensor_op_same by done. simpl.
  split; [by apply tensor_op_same; [apply pointwise_wf|]|].
  split; [by apply pointwise_wf; [apply pointwise_wf|]|].
  split; [done|]. split; [simpl; by rewrite !length_map|].
  intros i d a Hat. pose proof (at_lt _ _ _ _ Hwf Hat) as Hd.
  destruct (lookup_lt_is_Some_2 m d) as [md Hmd]; [lia|].
  destruct (lookup_lt_is_Some_2 s d) as [sd Hsd]; [lia|].
  exists md, sd. rewrite !pointwise_at, Hat. simpl.
  by rewrite Hmd, Hsd.
Qed.

(** [column] reads dimension [d] of every frame, in the order of the
    frames. *)
Lemma column_lookup x d j :
  wf x -> d < t_dim x -> column x d !! j = at_ x j d.
Proof.
  unfold wf, column, at_. intros Hwf Hd. revert j.
  induction Hwf as [|row rows Hrow _ IH]; intros j; [done|].
  destruct (lookup_lt_is_Some_2 row d) as [a Ha]; [lia|].
  simpl. rewrite Ha. destruct j as [|j]; simpl; [done|]. apply IH.
Qed.

Lemma column_length x d :
  wf x -> d < t_dim x -> length (column x d) = length (t_frames x).
Proof.
  unfold wf, column. intros Hwf Hd.
  induction Hwf as [|row rows Hrow _ IH]; [done|].
  destruct (lookup_lt_is_Some_2 row d) as [a Ha]; [lia|].
  simpl. rewrite Ha. simpl. f_equal. apply IH.
Qed.

Lemma column_across x d :
  wf x -> d < t_dim x -> across_frames x d (column x d).
Proof.
  intros Hwf Hd. split; [by apply column_length|].
  intros j. by apply column_lookup.
Qed.

(** The values [col] across the frames determine a column. *)
Lemma across_frames_unique x d (col col' : list F) :
  across_frames x d col -> across_frames x d col' -> col = col'.
Proof.
  intros [_ Hcol] [_ Hcol']. apply list_eq. intros j.
  by rewrite Hcol, Hcol'.
Qed.

(** The local step, stated on the values of each dimension across the
    frames: every value is centred on their mean and divided by the
    square root of the mean of their squared differences to it, plus
    [1e-6]. *)
Lemma local_norm_across x :
  wf x ->
  exists out,
    local_norm x = Ok out
    /\ same_shape out x
    /\ forall i d b, at_ x i d = Some b ->
         exists col,
           across_frames x d col
           /\ let mean := reduce_mean col in
              let variance :=
                reduce_mean (map (fun a => fmul (fsub a mean) (fsub a mean)) col) in
              at_ out i d =
                Some (fdiv (fsub b mean) (fadd (fsqrt variance) (cast eps))).
Proof.
  intros Hwf.
  destruct (local_norm_spec x Hwf) as (out & Ho & Hwfo & Hd & Hf & Hat).
  exists out. split; [done|]. split; [done|].
  intros i d b Hb. exists (column x d).
  split; [apply column_across; [done|by eapply at_lt]|].
  simpl. by rewrite (Hat i d b Hb).
Qed.

End TensorFacts.

(** ** The claims about [CMVN.params] and the constructor *)

(** C1: [CMVN.params] returns a configuration record only when the
    effective [global_mean] and [global_variance] have one length, and the
    record it returns has a mean and a variance of one length; when the
    effective lengths differ, [params] raises and returns no record, the
    exception being the failed assertion whenever the configuration itself
    was parsed. *)
Theorem C1_params_checks_lengths cfg :
  (forall hp, params cfg = Ok hp ->
     exists m v s,
       effective cfg "global_mean" = Some (VFloats m)
       /\ effective cfg "global_variance" = Some (VFloats v)
       /\ length m = length v
       /\ hp !! "global_mean" = Some (VFloats m)
       /\ hp !! "global_variance" = Some (VFloats s)
       /\ length m = length s)
  /\ (forall gm gv,
       effective cfg "global_mean" = Some gm ->
       effective cfg "global_variance" = Some gv ->
       py_len gm <> py_len gv ->
       exists e, params cfg = Raise e
                 /\ (is_ok (registered cfg) = true -> e = AssertionError)).
Proof.
  split.
  - intros hp Hp.
    destruct (params_inv _ _ Hp) as (hp0 & m & v & Hr & Hm & Hv & Hlen & ->).
    exists m, v, (map (fun x => (PrimFloat.sqrt x + eps)%float) v).
    rewrite <- !(registered_lookup _ _ _ Hr).
    rewrite lookup_insert_eq, lookup_insert_ne by done.
    rewrite length_map. repeat split; done.
  - intros gm gv Hgm Hgv Hne. unfold params.
    destruct (registered cfg) as [hp0|e] eqn:Hr; simpl; [|by exists e].
    exists AssertionError. split; [|done].
    rewrite <- (registered_lookup _ _ _ Hr) in Hgm.
    rewrite <- (registered_lookup _ _ _ Hr) in Hgv.
    destruct (registered_floats _ _ "global_mean" _ Hr eq_refl) as [m Hm].
    destruct (registered_floats _ _ "global_variance" _ Hr eq_refl) as [v Hv].
    unfold validated, getattr. rewrite Hm, Hv. simpl.
    rewrite Hm in Hgm. rewrite Hv in Hgv.
    injection Hgm as <-. injection Hgv as <-. simpl in Hne.
    destruct (Nat.eqb_spec (length m) (length v)) as [Heq|_]; [|done].
    by rewrite Heq in Hne.
Qed.

Lemma C1_params_checks_lengths_witness :
  params (Some cfg_mismatch) = Raise AssertionError
  /\ hp22 !! "global_mean" = Some (VFloats [1%float; 1%float]).
Proof.
  split.
  - assert (Hne : py_len (VFloats [1%float; 1%float]) <> py_len (VFloats [1%float]))
      by discriminate.
    destruct (proj2 (C1_params_checks_lengths (Some cfg_mismatch))
      _ _ eq_refl eq_refl Hne) as (e & -> & He).
    f_equal. by apply He.
  - destruct (proj1 (C1_params_checks_lengths (Some cfg22)) hp22 eq_refl)
      as (m & v & s & Hm & _ & _ & Hl & _).
    vm_compute in Hm. injection Hm as <-. exact Hl.
Defined.

(** C2: in the record returned by [CMVN.params], [global_variance] holds,
    for every dimension [d], [sqrt(v[d]) + 1e-6] where [v] is the effective
    raw variance (the default overridden by the configuration); this holds
    for every accepted vector, the non-negative ones included. *)
Theorem C2_params_scales_variance cfg hp v :
  params cfg = Ok hp ->
  effective cfg "global_variance" = Some (VFloats v) ->
  exists s,
    hp !! "global_variance" = Some (VFloats s)
    /\ length s = length v
    /\ forall d x, v !! d = Some x ->
         s !! d = Some (PrimFloat.sqrt x + eps)%float.
Proof.
  intros Hp Hv.
  destruct (params_inv _ _ Hp) as (hp0 & m & v' & Hr & Hm & Hv' & Hlen & ->).
  rewrite <- (registered_lookup _ _ _ Hr), Hv' in Hv. injection Hv as ->.
  eexists. rewrite lookup_insert_eq. split; [done|].
  split; [by rewrite length_map|].
  intros d x Hd. by rewrite list_lookup_fmap, Hd.
Qed.

Lemma C2_params_scales_variance_witness :
  exists s,
    hp22 !! "global_variance" = Some (VFloats s)
    /\ length s = 2
    /\ forall d x, [1%float; 4%float] !! d = Some x ->
         s !! d = Some (PrimFloat.sqrt x + eps)%float.
Proof.
  apply (C2_params_scales_variance (Some cfg22) hp22 [1%float; 4%float]);
    reflexivity.
Defined.

(** An instance built from an accepted configuration. *)
Lemma instance_inv cfg hp c :
  params cfg = Ok hp -> init hp = Ok c ->
  exists m v lc,
    effective cfg "global_mean" = Some (VFloats m)
    /\ effective cfg "global_variance" = Some (VFloats v)
    /\ effective cfg "local_cmvn" = Some (VBool lc)
    /\ length m = length v
    /\ c = mkCMVN hp (if Nat.ltb 1 (length m) then true else false)
    /\ hp !! "global_mean" = Some (VFloats m)
    /\ hp !! "global_variance" =
         Some (VFloats (map (fun x => (PrimFloat.sqrt x + eps)%float) v))
    /\ hp !! "local_cmvn" = Some (VBool lc).
Proof.
  intros Hp Hi.
  destruct (params_inv _ _ Hp) as (hp0 & m & v & Hr & Hm & Hv & Hlen & ->).
  destruct (registered_bool _ _ "local_cmvn" _ Hr eq_refl) as [lc Hlc].
  exists m, v, lc. rewrite <- !(registered_lookup _ _ _ Hr).
  rewrite lookup_insert_eq, !lookup_insert_ne by done.
  unfold init, getattr in Hi. rewrite lookup_insert_ne, Hm in Hi by done.
  simpl in Hi. injection Hi as <-. repeat split; done.
Qed.

(** [call] of such an instance, with the attribute reads resolved. *)
Lemma call_instance {F : Type} `{TensorLib F} hp g m s lc (x : tensor F) :
  hp !! "global_mean" = Some (VFloats m) ->
  hp !! "global_variance" = Some (VFloats s) ->
  hp !! "local_cmvn" = Some (VBool lc) ->
  call (mkCMVN hp g) x =
    (y ← (if g then
            centred ← tensor_op fsub x (map cast m);
            tensor_op fdiv centred (map cast s)
          else Ok x);
     if lc then local_norm y else Ok y).
Proof.
  intros Hm Hs Hlc. unfold call, getattr. simpl. rewrite Hm, Hs, Hlc.
  destruct g; simpl; [|done].
  destruct (tensor_op fsub x (map cast m)); simpl; [|done].
  by destruct (tensor_op fdiv _ _).
Qed.

(** C5: for a record accepted by the constructor, [global_cmvn] is true
    exactly when [len(global_mean) > 1]; with a single-element mean the flag
    is false and [call] goes straight to the local step, whatever the
    feature and its element type. *)
Theorem C5_global_cmvn_flag hp c :
  init hp = Ok c ->
  exists gm n,
    config c = hp
    /\ hp !! "global_mean" = Some gm
    /\ py_len gm = Ok n
    /\ (global_cmvn c = true <-> 1 < n)
    /\ (n = 1 ->
        global_cmvn c = false
        /\ forall F (L : TensorLib F) (x : tensor F),
             call c x =
               (lc ← getattr hp "local_cmvn";
                if truthy lc then local_norm x else Ok x)).
Proof.
  unfold init, getattr. intros Hi.
  destruct (hp !! "global_mean") as [gm|] eqn:Hgm; [|discriminate].
  simpl in Hi. destruct (py_len gm) as [n|] eqn:Hn; [|discriminate].
  simpl in Hi. injection Hi as <-. exists gm, n. simpl.
  split; [done|]. split; [done|]. split; [done|]. split.
  - destruct (Nat.ltb_spec 1 n); split; first [done | lia].
  - intros ->. split; [done|]. intros F L x. reflexivity.
Qed.

Lemma C5_global_cmvn_flag_witness :
  exists gm n,
    config cmvn_default = hp_default
    /\ hp_default !! "global_mean" = Some gm
    /\ py_len gm = Ok n
    /\ (global_cmvn cmvn_default = true <-> 1 < n)
    /\ (n = 1 ->
        global_cmvn cmvn_default = false
        /\ forall F (L : TensorLib F) (x : tensor F),
             call cmvn_default x =
               (lc ← getattr hp_default "local_cmvn";
                if truthy lc then local_norm x else Ok x)).
Proof. apply (C5_global_cmvn_flag hp_default cmvn_default). reflexivity. Defined.

(** ** The claims about [CMVN.call] *)

Lemma same_shape_refl {F} (x : tensor F) : wf x -> same_shape x x.
Proof. by intros Hwf. Qed.

(** A feature of zeros stays a feature of zeros under the global step. *)
Example call_zeros :
  (hp ← params (Some cfg00); c ← init hp; call c zeros22) = Ok zeros22.
Proof. vm_compute. reflexivity. Qed.

(** Equal frames have no variance across the frames: the floor keeps the
    local step from dividing by zero, and every value becomes zero. *)
Example call_equal_frames :
  (hp ← params (Some cfg00_local); c ← init hp; call c same32)
  = Ok (mkTensor 2 [[0; 0]; [0; 0]; [0; 0]]%float).
Proof. vm_compute. reflexivity. Qed.

(** An unregistered key is refused by the strict parse of [params]. *)
Example params_unknown_key :
  params (Some (<["sample_rate" := VNum 16000%float]> cfg22))
  = Raise UnknownKeyError.
Proof. vm_compute. reflexivity. Qed.

(** C3: [call] of an instance built from an accepted configuration, on a
    feature of matching dimensionality, runs two steps in this order.
    Step 1, when [global_cmvn] is true, turns every element [a] of
    dimension [d] into [(a - global_mean[d]) / (sqrt(v[d]) + 1e-6)], the
    divisor being the scale stored at construction from the raw variance
    [v]; otherwise it leaves the input as it is.  Step 2, when [local_cmvn]
    is true, turns every element [b] of the result [y] of step 1 into
    [(b - mean[d]) / (sqrt(variance[d]) + 1e-6)], where [mean[d]] is the
    mean of the values [col] of dimension [d] of [y] across the frames
    (one value per frame, axis 0) and [variance[d]] the mean of their
    squared differences to it; otherwise it leaves [y] as it is.  The
    result of step 2 is returned. *)
Theorem C3_call_two_steps {F : Type} `{TensorLib F} cfg hp c (x : tensor F) m v :
  params cfg = Ok hp ->
  init hp = Ok c ->
  effective cfg "global_mean" = Some (VFloats m) ->
  effective cfg "global_variance" = Some (VFloats v) ->
  wf x ->
  (global_cmvn c = true -> t_dim x = length m) ->
  exists lc y out,
    config c !! "local_cmvn" = Some (VBool lc)
    /\ same_shape y x
    /\ (if global_cmvn c then
          forall i d a, at_ x i d = Some a ->
            exists md vd, m !! d = Some md /\ v !! d = Some vd
              /\ at_ y i d =
                   Some (fdiv (fsub a (cast md))
                              (cast (PrimFloat.sqrt vd + eps)%float))
        else y = x)
    /\ same_shape out x
    /\ (if lc then
          forall i d b, at_ y i d = Some b ->
            exists col,
              across_frames y d col
              /\ let mean := reduce_mean col in
                 let variance :=
                   reduce_mean
                     (map (fun a => fmul (fsub a mean) (fsub a mean)) col) in
                 at_ out i d =
                   Some (fdiv (fsub b mean) (fadd (fsqrt variance) (cast eps)))
        else out = y)
    /\ call c x = Ok out.
Proof.
  intros Hp Hi Hm Hv Hwf Hdim.
  destruct (instance_inv _ _ _ Hp Hi)
    as (m' & v' & lc & Hm' & Hv' & _ & Hlen & -> & Hgm & Hgv & Hlc).
  rewrite Hm in Hm'. injection Hm' as <-.
  rewrite Hv in Hv'. injection Hv' as <-.
  simpl in *. rewrite (call_instance _ _ _ _ _ _ Hgm Hgv Hlc).
  exists lc.
  assert (exists y,
    (if (if Nat.ltb 1 (length m) then true else false) then
       centred ← tensor_op fsub x (map cast m);
       tensor_op fdiv centred
         (map cast (map (fun x => (PrimFloat.sqrt x + eps)%float) v))
     else Ok x) = Ok y
    /\ same_shape y x
    /\ (if (if Nat.ltb 1 (length m) then true else false) then
          forall i d a, at_ x i d = Some a ->
            exists md vd, m !! d = Some md /\ v !! d = Some vd
              /\ at_ y i d =
                   Some (fdiv (fsub a (cast md))
                              (cast (PrimFloat.sqrt vd + eps)%float))
        else y = x)) as (y & -> & Hshape & Hy).
  { destruct (Nat.ltb 1 (length m)); [|by exists x].
    destruct (global_step_spec x (map cast m)
                (map cast (map (fun x => (PrimFloat.sqrt x + eps)%float) v)))
      as (y & Hstep & Hwfy & Hd & Hf & Hat);
      [done|rewrite length_map; by rewrite Hdim|
       rewrite !length_map; by rewrite Hdim, Hlen|].
    exists y. split; [done|]. split; [done|].
    intros i d a Ha. destruct (Hat i d a Ha) as (md & sd & Hmd & Hsd & Hyd).
    rewrite list_lookup_fmap in Hmd. rewrite !list_lookup_fmap in Hsd.
    destruct (m !! d) as [md'|]; simpl in Hmd; [|discriminate].
    destruct (v !! d) as [vd'|]; simpl in Hsd; [|discriminate].
    injection Hmd as <-. injection Hsd as <-.
    by exists md', vd'. }
  exists y. simpl. destruct Hshape as (Hwfy & Hdy & Hfy).
  destruct lc.
  - destruct (local_norm_across y Hwfy)
      as (out & -> & (Hwfo & Hdo & Hfo) & Hat).
    exists out. split; [done|]. split; [done|]. split; [done|].
    split; [|done]. split; [done|]. split; congruence.
  - exists y. repeat split; done.
Qed.

Lemma wf_x32 : wf x32.
Proof. unfold wf. simpl. repeat constructor. Defined.

Lemma wf_x12 : wf x12.
Proof. unfold wf. simpl. repeat constructor. Defined.

Lemma wf_x21 : wf x21.
Proof. unfold wf. simpl. repeat constructor. Defined.

Lemma C3_call_two_steps_witness :
  exists lc y out,
    config cmvn22_local !! "local_cmvn" = Some (VBool lc)
    /\ same_shape y x32
    /\ (if global_cmvn cmvn22_local then
          forall i d a, at_ x32 i d = Some a ->
            exists md vd, [1%float; 1%float] !! d = Some md
              /\ [1%float; 4%float] !! d = Some vd
              /\ at_ y i d =
                   Some (fdiv (fsub a (cast md))
                              (cast (PrimFloat.sqrt vd + eps)%float))
        else y = x32)
    /\ same_shape out x32
    /\ (if lc then
          forall i d b, at_ y i d = Some b ->
            exists col,
              across_frames y d col
              /\ let mean := reduce_mean col in
                 let variance :=
                   reduce_mean
                     (map (fun a => fmul (fsub a mean) (fsub a mean)) col) in
                 at_ out i d =
                   Some (fdiv (fsub b mean) (fadd (fsqrt variance) (cast eps)))
        else out = y)
    /\ call cmvn22_local x32 = Ok out.
Proof.
  apply (C3_call_two_steps (Some cfg22_local) hp22_local cmvn22_local x32
           [1%float; 1%float] [1%float; 4%float]);
    try reflexivity.
  exact wf_x32.
Defined.

(** C4, as amended: with [global_cmvn] true and a feature whose last
    dimension differs from [len(global_mean)], [call] raises the shape
    error when that dimension is not 1; a feature of last dimension 1 is
    broadcast against the statistics and [call] returns a tensor of last
    dimension [len(global_mean)] with as many frames. *)
Theorem C4_call_shape_mismatch {F : Type} `{TensorLib F} cfg hp c (x : tensor F) m :
  params cfg = Ok hp ->
  init hp = Ok c ->
  effective cfg "global_mean" = Some (VFloats m) ->
  wf x ->
  global_cmvn c = true ->
  t_dim x <> length m ->
  (t_dim x <> 1 -> call c x = Raise ShapeMismatchError)
  /\ (t_dim x = 1 ->
      exists out, call c x = Ok out /\ wf out /\ t_dim out = length m
                  /\ length (t_frames out) = length (t_frames x)).
Proof.
  intros Hp Hi Hm Hwf Hg Hne.
  destruct (instance_inv _ _ _ Hp Hi)
    as (m' & v & lc & Hm' & _ & _ & Hlen & -> & Hgm & Hgv & Hlc).
  rewrite Hm in Hm'. injection Hm' as <-.
  simpl in Hg. rewrite (call_instance _ _ _ _ _ _ Hgm Hgv Hlc), Hg.
  assert (Hm1 : length m <> 1).
  { destruct (Nat.ltb_spec 1 (length m)); [lia|discriminate]. }
  split; intros HD.
  - rewrite tensor_op_mismatch; [done|by rewrite length_map..|done].
  - rewrite tensor_op_stretch; [|done|by rewrite length_map]. simpl.
    pose proof (stretched_wf fsub x (map cast m) Hwf HD) as Hwfs.
    rewrite tensor_op_same;
      [|done|simpl; rewrite !length_map; by rewrite Hlen]. simpl.
    set (y := pointwise fdiv _ _).
    assert (Hy : wf y /\ t_dim y = length m
                 /\ length (t_frames y) = length (t_frames x)).
    { split; [|split].
      - apply pointwise_wf; [done|]. simpl. rewrite !length_map. by rewrite Hlen.
      - simpl. by rewrite length_map.
      - simpl. by rewrite !length_map. }
    destruct Hy as (Hwfy & Hdy & Hfy). destruct lc.
    + destruct (local_norm_spec y Hwfy) as (out & -> & Hwfo & Hdo & Hfo & _).
      exists out. repeat split; (done || congruence).
    + by exists y.
Qed.

Lemma C4_call_shape_mismatch_witness :
  (t_dim x21 <> 1 -> call cmvn22 x21 = Raise ShapeMismatchError)
  /\ (t_dim x21 = 1 ->
      exists out, call cmvn22 x21 = Ok out /\ wf out /\ t_dim out = 2
                  /\ length (t_frames out) = length (t_frames x21)).
Proof.
  apply (C4_call_shape_mismatch (Some cfg22) hp22 cmvn22 x21 [1%float; 1%float]);
    try reflexivity.
  - exact wf_x21.
  - discriminate.
Defined.

(** C4 as claimed fails: an instance with [global_cmvn] true, given a
    feature of last dimension 1 against statistics of length 2, raises
    nothing and returns a tensor of last dimension 2. *)
Lemma C4_counterexample :
  params (Some cfg22) = Ok hp22
  /\ init hp22 = Ok cmvn22
  /\ global_cmvn cmvn22 = true
  /\ wf x21
  /\ t_dim x21 <> 2
  /\ (exists out, call cmvn22 x21 = Ok out /\ t_dim out = 2)
  /\ call cmvn22 x21 <> Raise ShapeMismatchError.
Proof.
  split; [reflexivity|]. split; [reflexivity|]. split; [reflexivity|].
  split; [exact wf_x21|]. split; [discriminate|]. split.
  - eexists. split; [vm_compute; reflexivity|reflexivity].
  - vm_compute. discriminate.
Qed.

(** Two tensors whose first elements compare differently with [bound]
    are different tensors. *)
Lemma first_below_neq bound (y z : tensor float) :
  first_below bound y <> first_below bound z -> y <> z.
Proof. intros Hne ->. by apply Hne. Qed.

(** C9: with [local_cmvn] false and the global step enabled, [call] is not
    idempotent: for the instance built from mean [[1, 1]] and raw variance
    [[1, 4]] and the one-frame feature [[3, 3]], applying [call] to the
    result of [call] gives another tensor than the first result. *)
Theorem C9_call_not_idempotent :
  exists (c : CMVN) (x y z : tensor float),
    params (Some cfg22) = Ok (config c)
    /\ init (config c) = Ok c
    /\ config c !! "local_cmvn" = Some (VBool false)
    /\ global_cmvn c = true
    /\ wf x
    /\ call c x = Ok y
    /\ call c y = Ok z
    /\ z <> y.
Proof.
  exists cmvn22, x12.
  destruct (call cmvn22 x12) as [y|e] eqn:Hy; [|vm_compute in Hy; discriminate].
  destruct (call cmvn22 y) as [z|e] eqn:Hz.
  - exists y, z. do 4 (split; [reflexivity|]). split; [exact wf_x12|].
    split; [reflexivity|]. split; [exact Hz|].
    vm_compute in Hy. injection Hy as <-.
    vm_compute in Hz. injection Hz as <-.
    apply (first_below_neq 1.5%float). vm_compute. discriminate.
  - vm_compute in Hy. injection Hy as <-. vm_compute in Hz. discriminate.
Qed.

(** C10: with no normalisation enabled the transform is the identity:
    [call] of an instance whose [global_cmvn] and [local_cmvn] are both
    false returns its input, and [compute_cmvn] without a mean and with
    [local_cmvn] false returns the feature whatever [variance] is. *)
Theorem C10_identity_when_disabled {F : Type} `{TensorLib F} :
  (forall (c : CMVN) (x : tensor F),
     global_cmvn c = false ->
     config c !! "local_cmvn" = Some (VBool false) ->
     call c x = Ok x)
  /\ (forall (x : tensor F) (variance : option (list F)),
       compute_cmvn x None variance false = Ok x).
Proof.
  split.
  - intros c x Hg Hl. unfold call, getattr. by rewrite Hg, Hl.
  - reflexivity.
Qed.

Lemma C10_identity_when_disabled_witness :
  call cmvn_default x32 = Ok x32
  /\ compute_cmvn x32 None (Some [2%float; 2%float]) false = Ok x32.
Proof.
  split.
  - apply (proj1 C10_identity_when_disabled cmvn_default x32); reflexivity.
  - apply (proj2 C10_identity_when_disabled x32).
Defined.

(** ** The claims about [compute_cmvn] *)

(** C6: [compute_cmvn] with a mean and without a variance raises, for
    every feature, every mean vector and either value of [local_cmvn];
    no tensor is returned. *)
Theorem C6_compute_cmvn_needs_variance {F : Type} `{TensorLib F}
    (x : tensor F) (m : list F) (local_cmvn : bool) :
  compute_cmvn x (Some m) None local_cmvn = Raise AssertionError.
Proof. reflexivity. Qed.

(** C7: the global branch of [compute_cmvn] turns every element [a] of
    dimension [d] into [(a - mean[d]) / variance[d]] with the variance as
    the caller gave it, for every element type and whatever [fsqrt] and
    the floor are; the local step, if asked for, runs on that tensor.
    [CMVN.call] differs: built from the same mean and raw variance, it
    divides by [sqrt(variance[d]) + 1e-6] and returns another tensor. *)
Theorem C7_compute_cmvn_raw_variance :
  (forall F (L : TensorLib F) (x : tensor F) (m v : list F) (local_cmvn : bool),
     wf x -> length m = t_dim x -> length v = t_dim x ->
     exists y,
       same_shape y x
       /\ (forall i d a, at_ x i d = Some a ->
             exists md vd, m !! d = Some md /\ v !! d = Some vd
               /\ at_ y i d = Some (fdiv (fsub a md) vd))
       /\ compute_cmvn x (Some m) (Some v) local_cmvn =
            (if local_cmvn then local_norm y else Ok y))
  /\ (exists y1 y2,
       params (Some cfg22) = Ok hp22
       /\ init hp22 = Ok cmvn22
       /\ call cmvn22 x12 = Ok y1
       /\ compute_cmvn x12 (Some [1%float; 1%float]) (Some [1%float; 4%float]) false
            = Ok y2
       /\ y1 <> y2).
Proof.
  split.
  - intros F L x m v l Hwf Hm Hv.
    destruct (global_step_spec x m v Hwf Hm Hv)
      as (y & Hstep & Hwfy & Hd & Hf & Hat).
    exists y. split; [done|]. split; [done|].
    unfold compute_cmvn. by rewrite Hstep.
  - destruct (call cmvn22 x12) as [y1|e] eqn:H1; [|vm_compute in H1; discriminate].
    destruct (compute_cmvn x12 _ _ false) as [y2|e] eqn:H2;
      [|vm_compute in H2; discriminate].
    exists y1, y2. do 4 (split; [reflexivity|]).
    vm_compute in H1. injection H1 as <-.
    vm_compute in H2. injection H2 as <-.
    apply (first_below_neq 2%float). vm_compute. discriminate.
Qed.

Lemma C7_compute_cmvn_raw_variance_witness :
  exists y,
    same_shape y x32
    /\ (forall i d a, at_ x32 i d = Some a ->
          exists md vd, [1%float; 1%float] !! d = Some md
            /\ [1%float; 4%float] !! d = Some vd
            /\ at_ y i d = Some (fdiv (fsub a md) vd))
    /\ compute_cmvn x32 (Some [1%float; 1%float]) (Some [1%float; 4%float]) false
         = Ok y.
Proof.
  apply (proj1 C7_compute_cmvn_raw_variance float float64 x32
           [1%float; 1%float] [1%float; 4%float] false).
  - exact wf_x32.
  - reflexivity.
  - reflexivity.
Defined.

(** ** The [dim] method *)

(** C8, as the code has it: the class body binds [__init__], [params] and
    [call] and no [dim]; the [def dim] sits in the body of [call] behind
    its [return], where it is never executed, so that no [dim] is bound
    there either. *)
Theorem C8_dim_is_never_bound :
  bound CMVN_body = ["__init__"; "params"; "call"]
  /\ has_method "call" = true
  /\ has_method "dim" = false
  /\ bound call_body = [].
Proof. repeat split; vm_compute; reflexivity. Qed.

(** ** Further properties of [CMVN.params] and the constructor *)

(** [parse] succeeds exactly when the store takes every entry. *)
Lemma parse_ok_iff c strict hp :
  (exists hp', parse c strict hp = Ok hp')
  <-> (forall k v, c !! k = Some v -> entry_ok strict hp k v).
Proof.
  unfold parse.
  apply (map_fold_weak_ind (fun r m =>
    ((exists hp', r = Ok hp')
       <-> (forall k v, m !! k = Some v -> entry_ok strict hp k v))
    /\ (forall hp', r = Ok hp' -> forall k,
          hp' !! k = match hp !! k with
                     | Some old => Some (default old (m !! k))
                     | None => None
                     end))).
  - split.
    + split; [intros _ k v; by rewrite lookup_empty|eauto].
    + intros hp' [= <-] k. rewrite lookup_empty. by destruct (hp !! k).
  - intros i x m r Hi [IHiff IHlook].
    assert (Hm : (forall k v, <[i:=x]> m !! k = Some v -> entry_ok strict hp k v)
                 <-> (forall k v, m !! k = Some v -> entry_ok strict hp k v)
                     /\ entry_ok strict hp i x).
    { split.
      - intros Hall. split.
        + intros k v Hk. apply Hall. rewrite lookup_insert_ne; [done|].
          intros ->. by rewrite Hi in Hk.
        + apply Hall. by rewrite lookup_insert_eq.
      - intros [Hall Hx] k v. destruct (decide (i = k)) as [<-|Hne].
        + rewrite lookup_insert_eq. by intros [= <-].
        + rewrite lookup_insert_ne by done. apply Hall. }
    destruct r as [hp1|e]; simpl.
    + specialize (IHlook hp1 eq_refl).
      assert (Hhp1 : hp1 !! i = hp !! i).
      { rewrite IHlook, Hi. by destruct (hp !! i). }
      unfold set_hparam. rewrite Hhp1.
      assert (Hall : forall k v, m !! k = Some v -> entry_ok strict hp k v)
        by (apply IHiff; eauto).
      split.
      * rewrite Hm. unfold entry_ok at 2.
        destruct (hp !! i) as [old|].
        -- destruct (same_kind old x); split; eauto.
           ++ by intros [hp' ?].
           ++ by intros [_ ?].
        -- destruct strict; split; eauto.
           ++ by intros [hp' ?].
           ++ by intros [_ ?].
      * intros hp' Hstep k. destruct (decide (i = k)) as [<-|Hne].
        -- rewrite lookup_insert_eq. destruct (hp !! i) as [old|].
           ++ destruct (same_kind old x); [|discriminate].
              injection Hstep as <-. by rewrite lookup_insert_eq.
           ++ destruct strict; [discriminate|]. injection Hstep as <-.
              by rewrite Hhp1.
        -- rewrite lookup_insert_ne by done.
           destruct (hp !! i) as [old|].
           ++ destruct (same_kind old x); [|discriminate].
              injection Hstep as <-. rewrite lookup_insert_ne by done.
              apply IHlook.
           ++ destruct strict; [discriminate|]. injection Hstep as <-.
              apply IHlook.
    + split; [|discriminate]. split; [by intros [hp' ?]|].
      rewrite Hm. intros [Hall _]. apply IHiff in Hall. by destruct Hall.
Qed.

(** [parse] on a store that has a default of its kind for every entry it
    knows: it succeeds exactly when, under [strict], it knows every key. *)
Lemma parse_known_keys c hp :
  (forall k v old, c !! k = Some v -> hp !! k = Some old -> same_kind old v = true) ->
  (exists hp', parse c true hp = Ok hp')
  <-> (forall k, is_Some (c !! k) -> is_Some (hp !! k)).
Proof.
  intros Hkind. rewrite parse_ok_iff. unfold entry_ok. split.
  - intros Hall k [v Hv]. specialize (Hall k v Hv).
    destruct (hp !! k); [eauto|discriminate].
  - intros Hkeys k v Hv. destruct (Hkeys k) as [old Hold]; [eauto|].
    rewrite Hold. by eapply Hkind.
Qed.

(** X1: which configurations [CMVN.params] accepts.  For a configuration
    whose values have the kinds of their options, [params] returns a record
    exactly when every key of the configuration is one of the registered
    options and the effective mean and variance have one length. *)
Theorem params_accepts_iff (c : gmap string value) :
  well_kinded c ->
  (exists hp, params (Some c) = Ok hp)
  <-> (forall k, is_Some (c !! k) -> is_Some (defaults !! k))
      /\ (exists m v,
            effective (Some c) "global_mean" = Some (VFloats m)
            /\ effective (Some c) "global_variance" = Some (VFloats v)
            /\ length m = length v).
Proof.
  intros Hkind. rewrite <- (parse_known_keys c defaults Hkind). split.
  - intros [hp Hp].
    destruct (params_inv _ _ Hp) as (hp0 & m & v & Hr & Hm & Hv & Hlen & _).
    split.
    + exists hp0. by rewrite <- registered_parse.
    + exists m, v. by rewrite <- !(registered_lookup _ _ _ Hr).
  - intros [[hp0 Hr] (m & v & Hm & Hv & Hlen)].
    rewrite <- registered_parse in Hr.
    rewrite <- (registered_lookup _ _ _ Hr) in Hm.
    rewrite <- (registered_lookup _ _ _ Hr) in Hv.
    unfold params, validated, getattr. rewrite Hr. simpl.
    rewrite Hm, Hv. simpl. rewrite Hlen, Nat.eqb_refl. simpl. eauto.
Qed.

Lemma well_kinded_cfg22 : well_kinded cfg22.
Proof.
  intros k v old Hc Hd. unfold cfg22 in Hc.
  destruct (decide (k = "global_mean")) as [->|Hm].
  { rewrite lookup_insert_eq in Hc. injection Hc as <-.
    vm_compute in Hd. by injection Hd as <-. }
  rewrite lookup_insert_ne in Hc by done.
  destruct (decide (k = "global_variance")) as [->|Hv].
  { rewrite lookup_insert_eq in Hc. injection Hc as <-.
    vm_compute in Hd. by injection Hd as <-. }
  rewrite lookup_insert_ne in Hc by done. by rewrite lookup_empty in Hc.
Defined.

Lemma params_accepts_iff_witness :
  (exists hp, params (Some cfg22) = Ok hp)
  <-> (forall k, is_Some (cfg22 !! k) -> is_Some (defaults !! k))
      /\ (exists m v,
            effective (Some cfg22) "global_mean" = Some (VFloats m)
            /\ effective (Some cfg22) "global_variance" = Some (VFloats v)
            /\ length m = length v).
Proof. apply (params_accepts_iff cfg22). exact well_kinded_cfg22. Defined.

Lemma dom_defaults :
  dom defaults
  = ({["type"; "global_mean"; "global_variance"; "local_cmvn"]} : gset string).
Proof. unfold defaults. rewrite !dom_insert_L, dom_empty_L. set_solver. Qed.

Lemma registered_dom cfg hp0 : registered cfg = Ok hp0 -> dom hp0 = dom defaults.
Proof.
  intros Hr. apply set_eq. intros k. rewrite !elem_of_dom.
  rewrite (registered_lookup _ _ _ Hr). unfold effective.
  destruct (defaults !! k); split; intros [? ?]; (done || eauto).
Qed.

(** X2: the record [CMVN.params] returns has the four registered options
    and no other; every option but [global_variance] holds the value the
    configuration gave it, or its default. *)
Theorem params_keeps_options cfg hp :
  params cfg = Ok hp ->
  dom hp = ({["type"; "global_mean"; "global_variance"; "local_cmvn"]} : gset string)
  /\ forall k, k <> "global_variance" -> hp !! k = effective cfg k.
Proof.
  intros Hp.
  destruct (params_inv _ _ Hp) as (hp0 & m & v & Hr & Hm & Hv & Hlen & ->).
  split.
  - rewrite dom_insert_L, (registered_dom _ _ Hr), dom_defaults. set_solver.
  - intros k Hk. rewrite lookup_insert_ne by done.
    by apply registered_lookup.
Qed.

Lemma params_keeps_options_witness :
  dom hp22 = ({["type"; "global_mean"; "global_variance"; "local_cmvn"]} : gset string)
  /\ forall k, k <> "global_variance" -> hp22 !! k = effective (Some cfg22) k.
Proof. apply (params_keeps_options (Some cfg22) hp22). reflexivity. Defined.

(** X3: the constructor never fails on a record returned by
    [CMVN.params]; the instance holds that record, and its [global_cmvn] is
    true exactly when the effective mean has more than one value. *)
Theorem init_after_params cfg hp :
  params cfg = Ok hp ->
  exists c m,
    init hp = Ok c
    /\ config c = hp
    /\ effective cfg "global_mean" = Some (VFloats m)
    /\ (global_cmvn c = true <-> 1 < length m).
Proof.
  intros Hp.
  destruct (params_inv _ _ Hp) as (hp0 & m & v & Hr & Hm & Hv & Hlen & ->).
  eexists _, m. unfold init, getattr.
  rewrite lookup_insert_ne, Hm by done. simpl.
  split; [reflexivity|]. split; [reflexivity|].
  split; [by rewrite <- (registered_lookup _ _ _ Hr)|]. simpl.
  destruct (Nat.ltb_spec 1 (length m)); split; first [done | lia].
Qed.

Lemma init_after_params_witness :
  exists c m,
    init hp22 = Ok c
    /\ config c = hp22
    /\ effective (Some cfg22) "global_mean" = Some (VFloats m)
    /\ (global_cmvn c = true <-> 1 < length m).
Proof. apply (init_after_params (Some cfg22) hp22). reflexivity. Defined.

(** ** Further properties of [call] and [compute_cmvn] *)

Section MoreTensorFacts.
Context {F : Type} `{TensorLib F}.
Implicit Types (x y : tensor F) (m v : list F) (op : F -> F -> F).

Lemma broadcast_row_length op row v D :
  broadcast_dim (length row) (length v) = Some D ->
  length (broadcast_row op row v) = D.
Proof.
  unfold broadcast_dim. intros Hb.
  destruct (Nat.eqb_spec (length row) (length v)) as [Heq|Hne].
  - injection Hb as <-. rewrite broadcast_row_same by done.
    rewrite length_zip_with. lia.
  - destruct (Nat.eqb_spec (length v) 1) as [Hv|Hv].
    + injection Hb as <-. destruct v as [|b [|b' v]]; try discriminate.
      destruct row as [|a [|a' row]]; simpl; [done|done|].
      by rewrite length_map.
    + destruct (Nat.eqb_spec (length row) 1) as [Hr|Hr]; [|discriminate].
      injection Hb as <-. destruct row as [|a [|a' row]]; try discriminate.
      simpl. by rewrite length_map.
Qed.

(** A tensor operation that succeeds returns a rectangular tensor with the
    frames of its operand and the broadcast dimensionality. *)
Lemma tensor_op_ok op x v D :
  wf x -> broadcast_dim (t_dim x) (length v) = Some D ->
  exists y, tensor_op op x v = Ok y /\ wf y /\ t_dim y = D
            /\ length (t_frames y) = length (t_frames x).
Proof.
  intros Hwf Hb. unfold tensor_op. rewrite Hb. eexists. split; [done|].
  split; [|split; [done|simpl; by rewrite length_map]].
  unfold wf in *. simpl. apply Forall_fmap.
  eapply Forall_impl; [exact Hwf|]. intros row Hrow. simpl in *.
  apply broadcast_row_length. by rewrite Hrow.
Qed.

Lemma tensor_op_fail op x v :
  broadcast_dim (t_dim x) (length v) = None ->
  tensor_op op x v = Raise ShapeMismatchError.
Proof. intros Hb. unfold tensor_op. by rewrite Hb. Qed.

Lemma tensor_op_scalar op x (b : F) : tensor_op op x [b] = Ok (with_scalar op x b).
Proof.
  unfold tensor_op, broadcast_dim, with_scalar. simpl.
  assert (Hrows : map (fun row => broadcast_row op row [b]) (t_frames x)
                  = map (map (fun a => op a b)) (t_frames x)).
  { apply map_ext. by intros [|a [|a' row]]. }
  rewrite Hrows. by destruct (Nat.eqb (t_dim x) 1).
Qed.

Lemma with_scalar_at op x (b : F) i d :
  at_ (with_scalar op x b) i d = (fun a => op a b) <$> at_ x i d.
Proof.
  unfold at_, with_scalar. simpl. rewrite list_lookup_fmap.
  destruct (t_frames x !! i) as [row|]; simpl; [|done].
  by rewrite list_lookup_fmap.
Qed.

Lemma local_step_ok (lc : bool) y :
  wf y ->
  exists out, (if lc then local_norm y else Ok y) = Ok out
              /\ wf out /\ t_dim out = t_dim y
              /\ length (t_frames out) = length (t_frames y).
Proof.
  intros Hwf. destruct lc; [|by exists y].
  destruct (local_norm_spec y Hwf) as (out & Ho & Hwfo & Hd & Hf & _).
  by exists out.
Qed.

(** X4: [CMVN.call] is [compute_cmvn] fed with the stored statistics: for
    an instance built from an accepted configuration and every feature,
    [call] returns what [compute_cmvn] returns for the mean and the scale
    [sqrt(v) + 1e-6] of the instance when [global_cmvn] is true, and for no
    mean when it is false, with the instance's [local_cmvn]. *)
Theorem call_is_compute_cmvn cfg hp c (m v : list float) lc x :
  params cfg = Ok hp ->
  init hp = Ok c ->
  effective cfg "global_mean" = Some (VFloats m) ->
  effective cfg "global_variance" = Some (VFloats v) ->
  effective cfg "local_cmvn" = Some (VBool lc) ->
  call c x =
    compute_cmvn x
      (if global_cmvn c then Some (map cast m) else None)
      (Some (map cast (scale_of v))) lc.
Proof.
  intros Hp Hi Hm Hv Hl.
  destruct (instance_inv _ _ _ Hp Hi)
    as (m' & v' & lc' & Hm' & Hv' & Hl' & _ & -> & Hgm & Hgv & Hlc).
  rewrite Hm in Hm'. injection Hm' as <-.
  rewrite Hv in Hv'. injection Hv' as <-.
  rewrite Hl in Hl'. injection Hl' as <-.
  rewrite (call_instance _ _ _ _ _ _ Hgm Hgv Hlc). simpl.
  by destruct (Nat.ltb 1 (length m)).
Qed.

(** X5: the local branch of [compute_cmvn].  Without a mean and with
    [local_cmvn] set, [compute_cmvn] never fails on a rectangular feature:
    it returns a tensor of the shape of the feature in which every element
    [b] of dimension [d] is [(b - mean[d]) / (sqrt(variance[d]) + 1e-6)],
    where [mean[d]] is the mean of the values [col] of dimension [d] of the
    feature across its frames (one value per frame, axis 0) and
    [variance[d]] the mean of their squared differences to it; [variance],
    the argument, is not looked at. *)
Theorem compute_cmvn_local x (variance : option (list F)) :
  wf x ->
  exists out,
    compute_cmvn x None variance true = Ok out
    /\ same_shape out x
    /\ forall i d b, at_ x i d = Some b ->
         exists col,
           across_frames x d col
           /\ let mean := reduce_mean col in
              let variance :=
                reduce_mean (map (fun a => fmul (fsub a mean) (fsub a mean)) col) in
              at_ out i d =
                Some (fdiv (fsub b mean) (fadd (fsqrt variance) (cast eps))).
Proof. intros Hwf. by apply local_norm_across. Qed.

(** X6: one-element statistics act as scalars.  With a mean [[a0]] and a
    variance [[b0]], [compute_cmvn] succeeds on a feature of any
    dimensionality, keeps its shape and turns every element [a] into
    [(a - a0) / b0]. *)
Theorem compute_cmvn_scalars x (a0 b0 : F) :
  wf x ->
  exists y,
    compute_cmvn x (Some [a0]) (Some [b0]) false = Ok y
    /\ same_shape y x
    /\ forall i d a, at_ x i d = Some a ->
         at_ y i d = Some (fdiv (fsub a a0) b0).
Proof.
  intros Hwf. unfold compute_cmvn. rewrite tensor_op_scalar. simpl.
  rewrite tensor_op_scalar. simpl. eexists. split; [done|]. split.
  - split; [|split; [done|simpl; by rewrite !length_map]].
    unfold wf in *. simpl. rewrite !Forall_fmap.
    eapply Forall_impl; [exact Hwf|]. intros row Hrow. simpl in *.
    by rewrite !length_map.
  - intros i d a Ha. rewrite !with_scalar_at, Ha. done.
Qed.

(** X7: when [compute_cmvn] with a mean and a variance fails.  The
    dimensionality [D] of the feature is broadcast against the length of
    the mean, and the outcome against the length of the variance; if both
    are compatible, [compute_cmvn] returns a tensor of the resulting
    dimensionality with as many frames as the feature, otherwise it raises
    the shape error, whether [local_cmvn] is set or not. *)
Theorem compute_cmvn_shapes x m v (local_cmvn : bool) :
  wf x ->
  match D1 ← broadcast_dim (t_dim x) (length m); broadcast_dim D1 (length v) with
  | Some D2 =>
      exists y, compute_cmvn x (Some m) (Some v) local_cmvn = Ok y
                /\ wf y /\ t_dim y = D2
                /\ length (t_frames y) = length (t_frames x)
  | None => compute_cmvn x (Some m) (Some v) local_cmvn = Raise ShapeMismatchError
  end.
Proof.
  intros Hwf. unfold compute_cmvn.
  destruct (broadcast_dim (t_dim x) (length m)) as [D1|] eqn:H1; simpl.
  - destruct (tensor_op_ok fsub x m D1 Hwf H1) as (c & -> & Hwfc & Hdc & Hfc).
    simpl. rewrite <- Hdc.
    destruct (broadcast_dim (t_dim c) (length v)) as [D2|] eqn:H2.
    + destruct (tensor_op_ok fdiv c v D2 Hwfc H2) as (y & -> & Hwfy & Hdy & Hfy).
      simpl. destruct (local_step_ok local_cmvn y Hwfy) as (out & -> & ? & ? & ?).
      exists out. repeat split; (done || congruence).
    + by rewrite (tensor_op_fail fdiv c v H2).
  - by rewrite (tensor_op_fail fsub x m H1).
Qed.

End MoreTensorFacts.

Lemma call_is_compute_cmvn_witness :
  call cmvn22 x32 =
    compute_cmvn x32 (Some [1%float; 1%float])
      (Some (scale_of [1%float; 4%float])) false.
Proof.
  exact (call_is_compute_cmvn (Some cfg22) hp22 cmvn22
           [1%float; 1%float] [1%float; 4%float] false x32
           eq_refl eq_refl eq_refl eq_refl eq_refl).
Defined.

Lemma compute_cmvn_local_witness :
  exists out,
    compute_cmvn x32 None None true = Ok out
    /\ same_shape out x32
    /\ forall i d b, at_ x32 i d = Some b ->
         exists col,
           across_frames x32 d col
           /\ let mean := reduce_mean col in
              let variance :=
                reduce_mean (map (fun a => fmul (fsub a mean) (fsub a mean)) col) in
              at_ out i d =
                Some (fdiv (fsub b mean) (fadd (fsqrt variance) (cast eps))).
Proof. apply (compute_cmvn_local x32 None). exact wf_x32. Defined.

Lemma compute_cmvn_scalars_witness :
  exists y,
    compute_cmvn x32 (Some [1%float]) (Some [2%float]) false = Ok y
    /\ same_shape y x32
    /\ forall i d a, at_ x32 i d = Some a ->
         at_ y i d = Some (fdiv (fsub a 1%float) 2%float).
Proof. apply (compute_cmvn_scalars x32 1%float 2%float). exact wf_x32. Defined.

Lemma compute_cmvn_shapes_witness :
  compute_cmvn x32 (Some [1%float; 1%float; 1%float]) (Some [1%float]) true
  = Raise ShapeMismatchError.
Proof.
  apply (compute_cmvn_shapes x32 [1%float; 1%float; 1%float] [1%float] true).
  exact wf_x32.
Defined.


(** ** Properties of the training entry point *)

Module MainFacts.
Import Main.

Section RunFacts.
Variable read_config : string -> option Params.

Lemma bind_inr {A B} (r : run A) (f : A -> run B) a :
  outcome r = inr a -> r ≫= f = mkRun (trace r ++ trace (f a)) (outcome (f a)).
Proof. intros Hr. unfold mbind, run_bind. by rewrite Hr. Qed.

Lemma bind_inl {A B} (r : run A) (f : A -> run B) e :
  outcome r = inl e -> r ≫= f = mkRun (trace r) (inl e).
Proof. intros Hr. unfold mbind, run_bind. by rewrite Hr. Qed.

Lemma count_app f t1 t2 : count f (t1 ++ t2) = count f t1 + count f t2.
Proof. unfold count. by rewrite filter_app, length_app. Qed.

Lemma quiet_app t1 t2 : quiet t1 -> quiet t2 -> quiet (t1 ++ t2).
Proof.
  unfold quiet, evaluated, checkpointed.
  intros (E1 & C1 & T1 & S1) (E2 & C2 & T2 & S2).
  rewrite !omap_app, !count_app, E1, E2, C1, C2, T1, T2, S1, S2. done.
Qed.

(** A loop whose turns all return runs them all, in order. *)
Lemma for_each_run {A} (xs : list A) (body : A -> run unit) :
  (forall x, outcome (body x) = inr tt) ->
  for_each xs body = mkRun (concat (map (fun x => trace (body x)) xs)) (inr tt).
Proof.
  intros Hbody. induction xs as [|x rest IH]; [done|].
  simpl. rewrite (bind_inr _ _ tt) by apply Hbody. by rewrite IH.
Qed.

Lemma epoch_body_ok p rank_size rank k :
  outcome (epoch_body p rank_size rank k) = inr tt.
Proof.
  unfold epoch_body.
  by destruct (bool_decide (rank = 0%Z)), (bool_decide (sorta_epoch p <= k)%Z).
Qed.

Lemma epoch_body_trace p rank_size rank k :
  let t := trace (epoch_body p rank_size rank k) in
  evaluated t = [k] /\ checkpointed t = [k] /\ count is_train t = 1
  /\ count is_cmvn t = 0
  /\ count is_shuffle t = (if bool_decide (sorta_epoch p <= k)%Z then 1 else 0).
Proof.
  unfold epoch_body.
  by destruct (bool_decide (rank = 0%Z)), (bool_decide (sorta_epoch p <= k)%Z).
Qed.

(** The events of the turns for the epochs [ks]. *)
Lemma epochs_trace p rank_size rank (ks : list Z) :
  let t := concat (map (fun k => trace (epoch_body p rank_size rank k)) ks) in
  evaluated t = ks /\ checkpointed t = ks /\ count is_train t = length ks
  /\ count is_cmvn t = 0
  /\ count is_shuffle t
     = length (filter (fun k => (sorta_epoch p <= k)%Z) ks).
Proof.
  induction ks as [|k ks IH]; [done|]. simpl in *.
  destruct IH as (E & C & T & M & S).
  destruct (epoch_body_trace p rank_size rank k) as (E1 & C1 & T1 & M1 & S1).
  unfold evaluated, checkpointed in *.
  rewrite !omap_app, !count_app, E, C, T, M, S, E1, C1, T1, M1, S1.
  repeat split; try done.
  rewrite filter_cons. by repeat case_decide; case_bool_decide.
Qed.



Lemma supported_iff p : supported p <-> first_unsupported p = None.
Proof.
  unfold supported, first_unsupported.
  destruct (SUPPORTED_DATASET_BUILDER !! dataset_builder p),
    (SUPPORTED_MODEL !! model p), (SUPPORTED_OPTIMIZER !! optimizer p);
    split; try done; intros (H1 & H2 & H3);
    by (destruct H1 || destruct H2 || destruct H3).
Qed.

(** Every way [load_model_from_jsonfile] can go. *)
Lemma load_spec jsonfile rank pre_run :
  let r := load_model_from_jsonfile read_config jsonfile rank pre_run in
  quiet (trace r) /\ count is_cmvn (trace r) = 0
  /\ match read_config jsonfile with
     | None => outcome r = inl ConfigError /\ count is_dataset_use (trace r) = 0
     | Some p =>
         match first_unsupported p with
         | Some k =>
             outcome r = inl (KeyError k) /\ count is_dataset_use (trace r) = 0
         | None =>
             if pre_run || bool_decide (pretrained_model p <> None) then
               match dev_csv p with
               | None =>
                   outcome r = inl ValueError
                   /\ count is_dataset_use (trace r) = 0
               | Some _ => outcome r = inr p
               end
             else outcome r = inr p /\ count is_dataset_use (trace r) = 0
         end
     end.
Proof.
  unfold load_model_from_jsonfile, first_unsupported, subscript.
  destruct (read_config jsonfile) as [p|]; [|done].
  cbn -[lookup SUPPORTED_DATASET_BUILDER SUPPORTED_MODEL SUPPORTED_OPTIMIZER
        bool_decide quiet count].
  destruct (SUPPORTED_DATASET_BUILDER !! dataset_builder p); [|done].
  destruct (SUPPORTED_MODEL !! model p); [|done].
  destruct (SUPPORTED_OPTIMIZER !! optimizer p); [|done].
  destruct (pre_run || bool_decide (pretrained_model p <> None)); [|done].
  by destruct (dev_csv p).
Qed.

(** The load that [train] asks for, with its pre-run. *)
Lemma load_pre_run jsonfile rank :
  let r := load_model_from_jsonfile read_config jsonfile rank true in
  quiet (trace r) /\ count is_cmvn (trace r) = 0
  /\ ((exists p, outcome r = inr p /\ read_config jsonfile = Some p
                 /\ supported p /\ is_Some (dev_csv p))
      \/ (exists e, outcome r = inl e) /\ ~ loadable read_config jsonfile).
Proof.
  destruct (load_spec jsonfile rank true) as (Hq & Hc & Hcases).
  split; [done|]. split; [done|]. unfold loadable.
  destruct (read_config jsonfile) as [p|].
  - destruct (first_unsupported p) as [k|] eqn:Hk.
    + right. split; [destruct Hcases; eauto|]. intros (p' & [= <-] & Hs & _).
      apply supported_iff in Hs. congruence.
    + simpl in Hcases. destruct (dev_csv p) as [csv|] eqn:Hdev.
      * left. exists p. rewrite supported_iff. eauto.
      * right. split; [destruct Hcases; eauto|]. intros (p' & [= <-] & _ & Hd).
        rewrite Hdev in Hd. by destruct Hd.
  - right. split; [destruct Hcases; eauto|]. by intros (p' & ? & _).
Qed.

(** The part of [train] after the models are loaded. *)
Lemma train_tail p rank_size rank :
  (emit (LoadCsv (train_csv p));;
   emit (ComputeCmvnIfNecessary (bool_decide (rank = 0%Z)));;
   emit NewSolver;;
   for_each (seqZ 0 (num_epochs p)) (epoch_body p rank_size rank))
  = mkRun
      ([LoadCsv (train_csv p);
        ComputeCmvnIfNecessary (bool_decide (rank = 0%Z)); NewSolver]
       ++ concat (map (fun k => trace (epoch_body p rank_size rank k))
                      (seqZ 0 (num_epochs p))))
      (inr tt).
Proof. rewrite for_each_run by apply epoch_body_ok. reflexivity. Qed.

(** What [train] does before its first epoch, and whether it gets there. *)
Lemma train_split jsonfile rank_size rank :
  let r := train read_config jsonfile rank_size rank in
  (exists e, outcome r = inl e /\ quiet (trace r) /\ count is_cmvn (trace r) = 0
             /\ ~ trainable read_config jsonfile)
  \/ (exists p before,
        read_config jsonfile = Some p
        /\ trainable read_config jsonfile
        /\ quiet before /\ count is_cmvn before = 1
        /\ r = mkRun
                 (before ++ concat (map (fun k => trace (epoch_body p rank_size rank k))
                                        (seqZ 0 (num_epochs p))))
                 (inr tt)).
Proof.
  unfold train.
  destruct (load_pre_run jsonfile rank) as (Hq & Hc & [Hok|[[e He] Hno]]).
  2:{ left. exists e. rewrite (bind_inl _ _ e He). simpl.
      split; [done|]. split; [done|]. split; [done|].
      intros (p & Hp & Hs & Hd & _). apply Hno. by exists p. }
  destruct Hok as (p & Hout & Hread & Hsup & Hdev).
  rewrite (bind_inr _ _ p Hout).
  remember (load_model_from_jsonfile read_config jsonfile rank true) as r1.
  assert (Hq3 : quiet [LoadCsv (train_csv p);
                       ComputeCmvnIfNecessary (bool_decide (rank = 0%Z)); NewSolver])
    by done.
  destruct (pretrained_model p) as [pretrained|] eqn:Hpre.
  - destruct (load_pre_run pretrained rank) as (Hq2 & Hc2 & [Hok2|[[e He] Hno]]).
    + destruct Hok2 as (p2 & Hout2 & Hread2 & Hsup2 & Hdev2).
      remember (load_model_from_jsonfile read_config pretrained rank true) as r2.
      right. exists p.
      exists (trace r1 ++ (trace r2 ++ [RestoreFromPretrained (model p2)])
              ++ [LoadCsv (train_csv p);
                  ComputeCmvnIfNecessary (bool_decide (rank = 0%Z)); NewSolver])%list.
      split; [done|]. split.
      { exists p. do 3 (split; [done|]). intros q Hpq. rewrite Hpre in Hpq.
        injection Hpq as <-. by exists p2. }
      split; [by repeat apply quiet_app|].
      split; [rewrite !count_app, Hc, Hc2; done|].
      rewrite (bind_inr r2 _ p2 Hout2).
      rewrite (bind_inr _ _ tt) by done. rewrite train_tail.
      cbn [trace outcome emit]. f_equal. by rewrite <- !app_assoc.
    + left. exists e. rewrite (bind_inl _ _ e He).
      rewrite (bind_inl _ _ e) by done. cbn [trace outcome].
      split; [done|]. split; [by apply quiet_app|].
      split; [by rewrite count_app, Hc, Hc2|].
      intros (p' & Hp' & _ & _ & Hall). rewrite Hread in Hp'.
      injection Hp' as <-. by apply Hno, Hall.
  - right. exists p.
    exists (trace r1 ++ [LoadCsv (train_csv p);
                         ComputeCmvnIfNecessary (bool_decide (rank = 0%Z)); NewSolver])%list.
    split; [done|]. split.
    { exists p. do 3 (split; [done|]). intros q. by rewrite Hpre. }
    split; [by apply quiet_app|].
    split; [rewrite count_app, Hc; done|].
    rewrite (bind_inr _ _ tt) by done. rewrite train_tail.
    cbn [trace outcome mret run_ret]. f_equal. by rewrite <- !app_assoc.
Qed.

(** X8: [load_model_from_jsonfile] raises [KeyError] exactly for the
    first name of the configuration that its table does not have, the
    dataset builder being looked up before the model and the model before
    the optimizer; the run has then used no dataset.  (The calls to the
    framework are taken to return.) *)
Theorem load_raises_key_error jsonfile rank pre_run p :
  read_config jsonfile = Some p ->
  let r := load_model_from_jsonfile read_config jsonfile rank pre_run in
  (forall k, outcome r = inl (KeyError k) <-> first_unsupported p = Some k)
  /\ (first_unsupported p <> None -> count is_dataset_use (trace r) = 0).
Proof.
  intros Hread. destruct (load_spec jsonfile rank pre_run) as (_ & _ & Hcases).
  rewrite Hread in Hcases. cbv zeta.
  destruct (first_unsupported p) as [k'|].
  - destruct Hcases as [-> Huse]. split; [|done].
    intros k. split; congruence.
  - split; [|done]. intros k. split; [|done].
    destruct (pre_run || bool_decide (pretrained_model p <> None)).
    + destruct (dev_csv p); [|destruct Hcases as [Hc _]]; congruence.
    + destruct Hcases as [Hc _]. congruence.
Qed.

(** X9: with supported names, [load_model_from_jsonfile] raises
    [ValueError] exactly when a pre-run is due (asked for, or a pretrained
    model is named) and the configuration has no [dev_csv]; it has then
    used no dataset.  Without pre-run and pretrained model it returns the
    configuration and uses no dataset either.  (The calls to the framework
    are taken to return.) *)
Theorem load_needs_dev_csv jsonfile rank pre_run p :
  read_config jsonfile = Some p ->
  supported p ->
  let r := load_model_from_jsonfile read_config jsonfile rank pre_run in
  (outcome r = inl ValueError
     <-> (pre_run = true \/ is_Some (pretrained_model p)) /\ dev_csv p = None)
  /\ (outcome r = inl ValueError -> count is_dataset_use (trace r) = 0)
  /\ (pre_run = false -> pretrained_model p = None ->
      outcome r = inr p /\ count is_dataset_use (trace r) = 0).
Proof.
  intros Hread Hsup. apply supported_iff in Hsup.
  destruct (load_spec jsonfile rank pre_run) as (_ & _ & Hcases).
  rewrite Hread, Hsup in Hcases. cbv zeta.
  destruct pre_run; cbn [orb] in Hcases.
  - destruct (dev_csv p) as [csv|].
    + rewrite Hcases. split; [|done]. split; [done|]. by intros [_ ?].
    + destruct Hcases as [-> Huse]. split; [|done]. split; eauto.
  - destruct (pretrained_model p) as [pretrained|].
    + rewrite bool_decide_eq_true_2 in Hcases by done.
      destruct (dev_csv p) as [csv|].
      * rewrite Hcases. split; [|done]. split; [done|]. by intros [_ ?].
      * destruct Hcases as [-> Huse]. split; [|done]. split; eauto.
    + rewrite bool_decide_eq_false_2 in Hcases by (by intros []).
      destruct Hcases as [-> Huse]. split; [|done].
      split; [done|]. intros [[?|[? ?]] _]; done.
Qed.

(** X10: [train] runs to its end exactly when the configuration file
    parses, names a supported dataset builder, model and optimizer and has
    a [dev_csv], and the same holds of the file of the pretrained model
    when the configuration names one. *)
Theorem train_succeeds_iff jsonfile rank_size rank :
  outcome (train read_config jsonfile rank_size rank) = inr tt
  <-> trainable read_config jsonfile.
Proof.
  destruct (train_split jsonfile rank_size rank)
    as [(e & He & _ & _ & Hno)|(p & before & _ & Hyes & _ & _ & Hr)].
  - rewrite He. split; [done|]. intros Hyes. by destruct Hno.
  - rewrite Hr. by split.
Qed.

(** X11: when [train] raises one of the exceptions of [main.py] itself
    (the configuration cannot be read, a name is not supported, [dev_csv]
    is missing), it does so before [compute_cmvn_if_necessary] is called
    and before the first epoch: nothing was trained, shuffled, evaluated
    or checkpointed.  (The calls to the framework are taken to return.) *)
Theorem train_fails_early jsonfile rank_size rank e :
  let r := train read_config jsonfile rank_size rank in
  outcome r = inl e ->
  quiet (trace r) /\ count is_cmvn (trace r) = 0.
Proof.
  cbv zeta.
  destruct (train_split jsonfile rank_size rank)
    as [(e' & He & Hq & Hc & _)|(p & before & _ & _ & _ & _ & Hr)]; [done|].
  by rewrite Hr.
Qed.

(** X12: a [train] that runs to its end calls
    [compute_cmvn_if_necessary] once, trains [num_epochs] times (not at all
    when [num_epochs] is not positive), and evaluates and checkpoints the
    epochs [0, 1, ..., num_epochs - 1] in this order. *)
Theorem train_epochs jsonfile rank_size rank p :
  read_config jsonfile = Some p ->
  trainable read_config jsonfile ->
  let t := trace (train read_config jsonfile rank_size rank) in
  evaluated t = seqZ 0 (num_epochs p)
  /\ checkpointed t = seqZ 0 (num_epochs p)
  /\ count is_train t = Z.to_nat (num_epochs p)
  /\ count is_cmvn t = 1.
Proof.
  intros Hread Hyes. cbv zeta.
  destruct (train_split jsonfile rank_size rank)
    as [(e & _ & _ & _ & Hno)|(p' & before & Hread' & _ & Hq & Hc & Hr)];
    [by destruct Hno|].
  rewrite Hread in Hread'. injection Hread' as <-. rewrite Hr. cbn [trace].
  destruct Hq as (E & C & T & _).
  destruct (epochs_trace p rank_size rank (seqZ 0 (num_epochs p)))
    as (E' & C' & T' & M' & _).
  unfold evaluated, checkpointed in *.
  rewrite !omap_app, !count_app, E, C, T, Hc, E', C', T', M', length_seqZ.
  repeat split; (done || lia).
Qed.


End RunFacts.

Lemma supported_defaults : supported DEFAULT_CONFIGS.
Proof. repeat split; eexists; reflexivity. Defined.

Lemma supported_with_dev : supported with_dev.
Proof. repeat split; eexists; reflexivity. Defined.

Lemma trainable_hkust : trainable sample_files "hkust.json".
Proof.
  exists with_dev. split; [reflexivity|]. split; [exact supported_with_dev|].
  split; [eexists; reflexivity|]. intros pretrained Hp. discriminate Hp.
Defined.

Lemma load_raises_key_error_witness :
  let r := load_model_from_jsonfile sample_files "las.json" 0 true in
  (forall k, outcome r = inl (KeyError k)
             <-> first_unsupported with_unknown_model = Some k)
  /\ (first_unsupported with_unknown_model <> None ->
      count is_dataset_use (trace r) = 0).
Proof.
  exact (load_raises_key_error sample_files "las.json" 0 true
           with_unknown_model eq_refl).
Defined.

Lemma load_needs_dev_csv_witness :
  let r := load_model_from_jsonfile sample_files "default.json" 0 true in
  (outcome r = inl ValueError
     <-> (true = true \/ is_Some (pretrained_model DEFAULT_CONFIGS))
         /\ dev_csv DEFAULT_CONFIGS = None)
  /\ (outcome r = inl ValueError -> count is_dataset_use (trace r) = 0)
  /\ (true = false -> pretrained_model DEFAULT_CONFIGS = None ->
      outcome r = inr DEFAULT_CONFIGS /\ count is_dataset_use (trace r) = 0).
Proof.
  exact (load_needs_dev_csv sample_files "default.json" 0 true
           DEFAULT_CONFIGS eq_refl supported_defaults).
Defined.

Lemma train_fails_early_witness :
  let r := train sample_files "default.json" 1 0 in
  quiet (trace r) /\ count is_cmvn (trace r) = 0.
Proof.
  exact (train_fails_early sample_files "default.json" 1 0 ValueError eq_refl).
Defined.

Lemma train_epochs_witness :
  let t := trace (train sample_files "hkust.json" 1 0) in
  evaluated t = seqZ 0 3
  /\ checkpointed t = seqZ 0 3
  /\ count is_train t = 3
  /\ count is_cmvn t = 1.
Proof.
  exact (train_epochs sample_files "hkust.json" 1 0 with_dev eq_refl
           trainable_hkust).
Defined.


End MainFacts.
